(** * Signature service: the signing helper and its two HTTP endpoints

    A shallow embedding of [src/enums.py] and [src/main.py]:
    [HelperSignature.signed_data], [attached_signed_data],
    [unpinned_signed_data] and the FastAPI handlers [sign_attached] and
    [sign_unpinned], together with the part of Python's [str], [bytes]
    and [base64] they rely on.

    - A Python [str] is a list of code points, a [bytes] a list of octets.
    - Exceptions are values of [exn]; a computation that can raise
      returns [exn + A].
    - The COM objects of CAdESCOM are the outside world: a [World] says
      which calls fail and what the store and the signer answer, and every
      call made is appended to a trace.
    - The [logger] and [print] calls write to the process's streams and
      are left out; the one of them that reads a COM property
      ([SubjectName], in the log line of a found certificate) is kept as
      that read. *)

From Stdlib Require Import List NArith ZArith Bool Lia String Ascii.
Import ListNotations.

Local Open Scope N_scope.

(** ** Python strings and bytes *)

Module Py.

(** A [str] is a sequence of code points, each below [0x110000]. *)
Definition str := list N.

(** A [bytes] object is a sequence of octets. *)
Definition bytes := list N.

Definition wf_str (s : str) : Prop := Forall (fun c => c < 0x110000) s.

Definition is_surrogate (c : N) : bool := (0xD800 <=? c) && (c <=? 0xDFFF).

(** A Unicode scalar value: a code point that is not a surrogate. *)
Definition scalar_value (c : N) : Prop :=
  c < 0x110000 /\ is_surrogate c = false.

Definition is_ascii (c : N) : bool := c <? 128.

Fixpoint str_eqb (a b : str) : bool :=
  match a, b with
  | [], [] => true
  | x :: a', y :: b' => (x =? y) && str_eqb a' b'
  | _, _ => false
  end.

(** The exceptions the service can meet.  [ValueError] carries its single
    argument; the two Unicode errors carry Python's five attributes;
    [com_error] is [pywintypes.com_error], which derives from [Exception]
    directly, and carries the text [str()] gives for it. *)
Inductive exn :=
| ValueError (msg : str)
| UnicodeEncodeError (encoding : string) (object : str) (start end_ : N) (reason : string)
| UnicodeDecodeError (encoding : string) (object : bytes) (start end_ : N) (reason : string)
| com_error (text : str).

(** [isinstance(e, ValueError)]: the Unicode errors are subclasses. *)
Definition isinstance_ValueError (e : exn) : bool :=
  match e with
  | ValueError _ | UnicodeEncodeError _ _ _ _ _ | UnicodeDecodeError _ _ _ _ _ => true
  | com_error _ => false
  end.

(** *** [bytes.decode] *)

Definition is_cont (b : N) : bool := (0x80 <=? b) && (b <=? 0xBF).

Definition low6 (b : N) : N := N.land b 0x3F.

Definition bad (pos len : N) (reason : string) : (N * N * string) + str :=
  inl (pos, pos + len, reason).

Definition push (c : N) (r : (N * N * string) + str) : (N * N * string) + str :=
  match r with
  | inl e => inl e
  | inr s => inr (c :: s)
  end.

(** The strict UTF-8 decoder.  On failure it gives the [start], [end] and
    [reason] of the [UnicodeDecodeError]. *)
Fixpoint utf8_decode_from (pos : N) (bs : bytes) : (N * N * string) + str :=
  match bs with
  | [] => inr []
  | b0 :: r0 =>
    if b0 <? 0x80 then push b0 (utf8_decode_from (pos + 1) r0)
    else if b0 <? 0xC2 then bad pos 1 "invalid start byte"
    else if b0 <? 0xE0 then
      match r0 with
      | [] => bad pos 1 "unexpected end of data"
      | b1 :: r1 =>
        if is_cont b1
        then push (N.lor (N.shiftl (N.land b0 0x1F) 6) (low6 b1))
                  (utf8_decode_from (pos + 2) r1)
        else bad pos 1 "invalid continuation byte"
      end
    else if b0 <? 0xF0 then
      match r0 with
      | [] => bad pos 1 "unexpected end of data"
      | b1 :: r1 =>
        if negb (is_cont b1) || ((b0 =? 0xE0) && (b1 <? 0xA0))
           || ((b0 =? 0xED) && (0xA0 <=? b1))
        then bad pos 1 "invalid continuation byte"
        else
          match r1 with
          | [] => bad pos 2 "unexpected end of data"
          | b2 :: r2 =>
            if is_cont b2
            then push (N.lor (N.shiftl (N.land b0 0x0F) 12)
                             (N.lor (N.shiftl (low6 b1) 6) (low6 b2)))
                      (utf8_decode_from (pos + 3) r2)
            else bad pos 2 "invalid continuation byte"
          end
      end
    else if b0 <? 0xF5 then
      match r0 with
      | [] => bad pos 1 "unexpected end of data"
      | b1 :: r1 =>
        if negb (is_cont b1) || ((b0 =? 0xF0) && (b1 <? 0x90))
           || ((b0 =? 0xF4) && (0x90 <=? b1))
        then bad pos 1 "invalid continuation byte"
        else
          match r1 with
          | [] => bad pos 2 "unexpected end of data"
          | b2 :: r2 =>
            if negb (is_cont b2) then bad pos 2 "invalid continuation byte"
            else
              match r2 with
              | [] => bad pos 3 "unexpected end of data"
              | b3 :: r3 =>
                if is_cont b3
                then push (N.lor (N.shiftl (N.land b0 0x07) 18)
                                 (N.lor (N.shiftl (low6 b1) 12)
                                        (N.lor (N.shiftl (low6 b2) 6) (low6 b3))))
                          (utf8_decode_from (pos + 4) r3)
                else bad pos 3 "invalid continuation byte"
              end
          end
      end
    else bad pos 1 "invalid start byte"
  end.

(** [b.decode()] and [b.decode('utf-8')]. *)
Definition decode_utf8 (b : bytes) : exn + str :=
  match utf8_decode_from 0 b with
  | inl (s, e, reason) => inl (UnicodeDecodeError "utf-8" b s e reason)
  | inr s => inr s
  end.

Fixpoint ascii_decode_from (pos : N) (bs : bytes) : (N * N * string) + str :=
  match bs with
  | [] => inr []
  | b :: r =>
    if b <? 128 then push b (ascii_decode_from (pos + 1) r)
    else bad pos 1 "ordinal not in range(128)"
  end.

(** [b.decode('ascii')]. *)
Definition decode_ascii (b : bytes) : exn + str :=
  match ascii_decode_from 0 b with
  | inl (s, e, reason) => inl (UnicodeDecodeError "ascii" b s e reason)
  | inr s => inr s
  end.

(** A string literal of the source: the file is UTF-8, so the code points
    are the decoding of the literal's octets. *)
Definition octets (s : string) : bytes :=
  map N_of_ascii (list_ascii_of_string s).

Definition lit (s : string) : str :=
  match utf8_decode_from 0 (octets s) with
  | inl _ => []
  | inr cs => cs
  end.

(** *** [str.encode] *)

(** Length of the longest prefix of [s] whose code points satisfy [p]. *)
Fixpoint run_length (p : N -> bool) (s : str) : N :=
  match s with
  | [] => 0
  | c :: r => if p c then 1 + run_length p r else 0
  end.

Fixpoint ascii_encode_from (pos : N) (s : str) : (N * N * string) + bytes :=
  match s with
  | [] => inr []
  | c :: r =>
    if is_ascii c then push c (ascii_encode_from (pos + 1) r)
    else bad pos (run_length (fun x => negb (is_ascii x)) s) "ordinal not in range(128)"
  end.

(** [s.encode('ascii')]: the error covers the whole run of code points
    that cannot be encoded. *)
Definition encode_ascii (s : str) : exn + bytes :=
  match ascii_encode_from 0 s with
  | inl (st, e, reason) => inl (UnicodeEncodeError "ascii" s st e reason)
  | inr b => inr b
  end.

Definition cont_of (c : N) (shift : N) : N :=
  N.lor 0x80 (N.land (N.shiftr c shift) 0x3F).

(** The UTF-8 octets of one code point that is not a surrogate. *)
Definition utf8_char (c : N) : bytes :=
  if c <? 0x80 then [c]
  else if c <? 0x800 then [N.lor 0xC0 (N.shiftr c 6); cont_of c 0]
  else if c <? 0x10000 then
    [N.lor 0xE0 (N.shiftr c 12); cont_of c 6; cont_of c 0]
  else
    [N.lor 0xF0 (N.shiftr c 18); cont_of c 12; cont_of c 6; cont_of c 0].

Definition prepend (b : bytes) (r : (N * N * string) + bytes) : (N * N * string) + bytes :=
  match r with
  | inl e => inl e
  | inr t => inr (b ++ t)
  end.

Fixpoint utf8_encode_from (pos : N) (s : str) : (N * N * string) + bytes :=
  match s with
  | [] => inr []
  | c :: r =>
    if is_surrogate c
    then bad pos (run_length is_surrogate s) "surrogates not allowed"
    else prepend (utf8_char c) (utf8_encode_from (pos + 1) r)
  end.

(** [s.encode()] and [s.encode('utf-8')]. *)
Definition encode_utf8 (s : str) : exn + bytes :=
  match utf8_encode_from 0 s with
  | inl (st, e, reason) => inl (UnicodeEncodeError "utf-8" s st e reason)
  | inr b => inr b
  end.

(** *** [str(e)] for an exception *)

Definition hex_digit (d : N) : N := if d <? 10 then 48 + d else 87 + d.

Fixpoint hex_fixed (width : nat) (n : N) : str :=
  match width with
  | O => []
  | S w => hex_fixed w (n / 16) ++ [hex_digit (n mod 16)]
  end.

Fixpoint uint_chars (u : Decimal.uint) : str :=
  match u with
  | Decimal.Nil => []
  | Decimal.D0 r => 48 :: uint_chars r
  | Decimal.D1 r => 49 :: uint_chars r
  | Decimal.D2 r => 50 :: uint_chars r
  | Decimal.D3 r => 51 :: uint_chars r
  | Decimal.D4 r => 52 :: uint_chars r
  | Decimal.D5 r => 53 :: uint_chars r
  | Decimal.D6 r => 54 :: uint_chars r
  | Decimal.D7 r => 55 :: uint_chars r
  | Decimal.D8 r => 56 :: uint_chars r
  | Decimal.D9 r => 57 :: uint_chars r
  end.

Definition decimal (n : N) : str := uint_chars (N.to_uint n).

(** How a code point is shown inside a [UnicodeEncodeError] message. *)
Definition escape_char (c : N) : str :=
  if c <=? 0xFF then lit "\x" ++ hex_fixed 2 c
  else if c <=? 0xFFFF then lit "\u" ++ hex_fixed 4 c
  else lit "\U" ++ hex_fixed 8 c.

Definition str_of_exn (e : exn) : str :=
  match e with
  | ValueError msg => msg
  | UnicodeEncodeError enc obj st en reason =>
    if (st <? N.of_nat (List.length obj)) && (en =? st + 1)
    then lit "'" ++ lit enc ++ lit "' codec can't encode character '"
         ++ escape_char (nth (N.to_nat st) obj 0) ++ lit "' in position "
         ++ decimal st ++ lit ": " ++ lit reason
    else lit "'" ++ lit enc ++ lit "' codec can't encode characters in position "
         ++ decimal st ++ lit "-" ++ decimal (en - 1) ++ lit ": " ++ lit reason
  | UnicodeDecodeError enc obj st en reason =>
    if (st <? N.of_nat (List.length obj)) && (en =? st + 1)
    then lit "'" ++ lit enc ++ lit "' codec can't decode byte 0x"
         ++ hex_fixed 2 (nth (N.to_nat st) obj 0) ++ lit " in position "
         ++ decimal st ++ lit ": " ++ lit reason
    else lit "'" ++ lit enc ++ lit "' codec can't decode bytes in position "
         ++ decimal st ++ lit "-" ++ decimal (en - 1) ++ lit ": " ++ lit reason
  | com_error text => text
  end.

(** *** [str.replace] with a one-character pattern *)

(** [s.replace(old, new)] where [old] is the single code point [old]:
    every occurrence is replaced, from left to right. *)
Definition replace (old : N) (new : str) (s : str) : str :=
  flat_map (fun c => if c =? old then new else [c]) s.

(** *** [str.lower] *)

Definition lower_ascii_char (c : N) : N :=
  if (65 <=? c) && (c <=? 90) then c + 32 else c.

Section Lower.

(** What [str.lower] answers on a string that has a code point outside
    ASCII: that is decided by the Unicode case tables of the
    interpreter, which are no part of the repository. *)
Variable unicode_lower : str -> str.

(** [s.lower()]: on an ASCII string the letters [A]..[Z] become
    [a]..[z] and nothing else moves. *)
Definition lower (s : str) : str :=
  if forallb is_ascii s then map lower_ascii_char s else unicode_lower s.

End Lower.

(** *** [base64.b64encode] *)

Definition b64_alphabet : bytes :=
  octets "ABCDEFGHIJKLMNOPQRSTUVWXYZabcdefghijklmnopqrstuvwxyz0123456789+/".

Definition b64_symbol (i : N) : N := nth (N.to_nat i) b64_alphabet 0.

(** The code of [=], the padding. *)
Definition b64_pad : N := 61.

(** Three octets give four symbols; one or two trailing octets give two
    or three symbols and padding. *)
Fixpoint b64encode (b : bytes) : bytes :=
  match b with
  | [] => []
  | [x] =>
    [b64_symbol (N.shiftr x 2); b64_symbol (N.shiftl (N.land x 3) 4);
     b64_pad; b64_pad]
  | [x; y] =>
    [b64_symbol (N.shiftr x 2);
     b64_symbol (N.lor (N.shiftl (N.land x 3) 4) (N.shiftr y 4));
     b64_symbol (N.shiftl (N.land y 15) 2); b64_pad]
  | x :: y :: z :: r =>
    b64_symbol (N.shiftr x 2)
    :: b64_symbol (N.lor (N.shiftl (N.land x 3) 4) (N.shiftr y 4))
    :: b64_symbol (N.lor (N.shiftl (N.land y 15) 2) (N.shiftr z 6))
    :: b64_symbol (N.land z 63)
    :: b64encode r
  end.

End Py.

(** ** [enums.py] *)

(** A value an enum member or a COM argument can hold. *)
Inductive value :=
| Int (n : Z)
| Str (s : Py.str).

Module SignatureEnum.

(** The members.  A name bound to a value that an earlier member
    already has is an alias of that member, as in Python's [Enum]. *)
Inductive member :=
| TIMER_ATTR_NAME
| CONTENT_ENCODING
| CAPICOM_CURRENT_USER_STORE
| CAPICOM_MY_STORE.

Definition CADES_BES : member := CONTENT_ENCODING.
Definition CADES_DEFAULT : member := TIMER_ATTR_NAME.
Definition CAPICOM_ENCODE_BASE64 : member := TIMER_ATTR_NAME.
Definition CAPICOM_STORE_OPEN_MAXIMUM_ALLOWED : member := CAPICOM_CURRENT_USER_STORE.

(** [member.value] *)
Definition value_of (m : member) : value :=
  match m with
  | TIMER_ATTR_NAME => Int 0%Z
  | CONTENT_ENCODING => Int 1%Z
  | CAPICOM_CURRENT_USER_STORE => Int 2%Z
  | CAPICOM_MY_STORE => Str (Py.lit "My")
  end.

End SignatureEnum.

(** ** The outside world: COM, the certificate store, the clock *)

(** What [datetime.now()] gives: an instant of the server's clock. *)
Definition datetime := N.

(** A certificate of the store, as far as the service reads it. *)
Record Certificate := {
  SerialNumber : Py.str;
  SubjectName : Py.str
}.

(** A [CAdESCOM.CPAttribute] after its two properties are set. *)
Record Attribute := {
  Name : value;
  Value : datetime
}.

(** A [CAdESCOM.CPSigner]: the certificate it is bound to (its index in
    the store's enumeration) and its collection of signed attributes,
    empty on a fresh object. *)
Record Signer := {
  signer_Certificate : nat;
  AuthenticatedAttributes2 : list Attribute
}.

(** A [CAdESCOM.CadesSignedData] after its two properties are set. *)
Record SignedData := {
  ContentEncoding : value;
  Content : Py.str
}.

(** The calls into [pythoncom] and the COM objects.
    [Store_Certificates] reads the property and starts its enumeration.
    [Store_Close] is the store's release method: it belongs to the
    interface of the store, and no function of the service calls it. *)
Inductive call :=
| CoInitialize
| CoUninitialize
| Dispatch (name : string)
| Store_Open (location name mode : value)
| Store_Certificates
| Store_Close
| Certificate_SerialNumber (index : nat)
| Certificate_SubjectName (index : nat)
| Signer_set_Certificate (index : nat)
| Attribute_set_Name (v : value)
| Attribute_set_Value (t : datetime)
| AuthenticatedAttributes2_Add (a : Attribute)
| SignedData_set_ContentEncoding (v : value)
| SignedData_set_Content (data : Py.str)
| SignCades (content : SignedData) (signer : Signer) (cades_type : value)
            (detached : bool) (encoding : value).

(** One state of the outside world for the span of one request.  A
    signing makes each of its calls once, so whether a call fails is a
    function of the call. *)
Record World := {
  (** [Some text]: the call raises [com_error] with that text. *)
  fails : call -> option Py.str;
  (** what the personal store of the current user enumerates *)
  certificates : list Certificate;
  (** the reading of the clock *)
  now : datetime;
  (** what [SignCades] returns when it does not fail *)
  signature : SignedData -> Signer -> Py.str
}.

(** ** Computations: a trace of calls and a result or an exception *)

Definition M (A : Type) : Type := World -> list call * (Py.exn + A).

Definition ret {A} (a : A) : M A := fun _ => ([], inr a).

Definition raise {A} (e : Py.exn) : M A := fun _ => ([], inl e).

Definition bind {A B} (m : M A) (f : A -> M B) : M B :=
  fun w =>
    match m w with
    | (t, inl e) => (t, inl e)
    | (t, inr a) => let (t', r) := f a w in (t ++ t', r)
    end.

Notation "x <- m ;; k" := (bind m (fun x => k))
  (at level 61, m at next level, right associativity).
Notation "m ;; k" := (bind m (fun _ => k))
  (at level 61, right associativity).

(** A pure step that may raise. *)
Definition lift {A} (r : Py.exn + A) : M A := fun _ => ([], r).

(** A reading of the world. *)
Definition asks {A} (f : World -> A) : M A := fun w => ([], inr (f w)).

(** A call that can fail. *)
Definition invoke (c : call) : M unit :=
  fun w =>
    ([c], match fails w c with
          | Some text => inl (Py.com_error text)
          | None => inr tt
          end).

(** A call that cannot fail. *)
Definition emit (c : call) : M unit := fun _ => ([c], inr tt).

(** [try: body finally: cleanup]. *)
Definition try_finally {A} (body : M A) (cleanup : M unit) : M A :=
  fun w =>
    let (t, r) := body w in
    match cleanup w with
    | (t', inl e) => (t ++ t', inl e)
    | (t', inr _) => (t ++ t', r)
    end.

(** ** [class HelperSignature] *)

Module HelperSignature.

Section Helper.

Variable unicode_lower : Py.str -> Py.str.

Definition lower : Py.str -> Py.str := Py.lower unicode_lower.

(** [with self._com_context(): body] *)
Definition _com_context {A} (body : M A) : M A :=
  invoke CoInitialize ;;
  try_finally body (emit CoUninitialize).

Definition _create_com_object (name : string) : M unit :=
  invoke (Dispatch name).

(** The [for] loop of [signed_data] over the certificates from position
    [index] on: the first one whose serial number matches, with its
    position. *)
Fixpoint find_certificate (serial_number : Py.str) (index : nat)
         (certs : list Certificate) : M (option (nat * Certificate)) :=
  match certs with
  | [] => ret None
  | element_oStore :: rest =>
    invoke (Certificate_SerialNumber index) ;;
    let cert_serial := lower (SerialNumber element_oStore) in
    if Py.str_eqb cert_serial (lower serial_number)
    then invoke (Certificate_SubjectName index) ;;
         ret (Some (index, element_oStore))
    else find_certificate serial_number (S index) rest
  end.

Definition not_found_message (serial_number : Py.str) : Py.str :=
  Py.lit "Подходящий сертификат с серийным номером " ++ serial_number
  ++ Py.lit " не найден!".

Definition signed_data (data serial_number : Py.str) : M Py.str :=
  _com_context (
    _create_com_object "CAdESCOM.STORE" ;;
    invoke (Store_Open
              (SignatureEnum.value_of SignatureEnum.CAPICOM_CURRENT_USER_STORE)
              (SignatureEnum.value_of SignatureEnum.CAPICOM_MY_STORE)
              (SignatureEnum.value_of SignatureEnum.CAPICOM_STORE_OPEN_MAXIMUM_ALLOWED)) ;;
    invoke Store_Certificates ;;
    certs <- asks certificates ;;
    oCert <- find_certificate serial_number 0 certs ;;
    match oCert with
    | None => raise (Py.ValueError (not_found_message serial_number))
    | Some (index, _) =>
      _create_com_object "CAdESCOM.CPSigner" ;;
      invoke (Signer_set_Certificate index) ;;
      _create_com_object "CAdESCOM.CPAttribute" ;;
      let attr_name := SignatureEnum.value_of SignatureEnum.TIMER_ATTR_NAME in
      invoke (Attribute_set_Name attr_name) ;;
      t <- asks now ;;
      invoke (Attribute_set_Value t) ;;
      let oSigningTimeAttr := {| Name := attr_name; Value := t |} in
      invoke (AuthenticatedAttributes2_Add oSigningTimeAttr) ;;
      let oSigner := {| signer_Certificate := index;
                        AuthenticatedAttributes2 := [oSigningTimeAttr] |} in
      _create_com_object "CAdESCOM.CadesSignedData" ;;
      let encoding := SignatureEnum.value_of SignatureEnum.CONTENT_ENCODING in
      invoke (SignedData_set_ContentEncoding encoding) ;;
      invoke (SignedData_set_Content data) ;;
      let oSignedData := {| ContentEncoding := encoding; Content := data |} in
      invoke (SignCades oSignedData oSigner
                        (SignatureEnum.value_of SignatureEnum.CADES_BES) false
                        (SignatureEnum.value_of SignatureEnum.CAPICOM_ENCODE_BASE64)) ;;
      asks (fun w => signature w oSignedData oSigner)
    end).

(** The content handed to [signed_data] in attached mode. *)
Definition attached_content (data : Py.str) : Py.exn + Py.str :=
  match Py.encode_ascii data with
  | inl e => inl e
  | inr data_bytes => Py.decode_ascii (Py.b64encode data_bytes)
  end.

Definition attached_signed_data (data serial_number : Py.str) : M Py.str :=
  base64_data <- lift (attached_content data) ;;
  signed_data base64_data serial_number.

(** The first line of [unpinned_signed_data]:
    [data.replace(' ', ' ').replace('\n', '').replace('\r', '')]. *)
Definition normalize (data : Py.str) : Py.str :=
  Py.replace 0x0D [] (Py.replace 0x0A [] (Py.replace 0x20 [0x20] data)).

(** The content handed to [signed_data] in detached mode. *)
Definition unpinned_content (data : Py.str) : Py.exn + Py.str :=
  match Py.encode_utf8 (normalize data) with
  | inl e => inl e
  | inr data_bytes => Py.decode_utf8 (Py.b64encode data_bytes)
  end.

Definition unpinned_signed_data (data serial_number : Py.str) : M Py.str :=
  base64_data <- lift (unpinned_content data) ;;
  signed_data base64_data serial_number.

End Helper.

End HelperSignature.

(** ** The FastAPI endpoints *)

Record SignRequest := {
  data : Py.str;
  serial_number : Py.str
}.

Record SignResponse := {
  signed_data : Py.str;
  status : Py.str
}.

(** What a handler does: it returns a response model, or raises an
    [HTTPException]. *)
Inductive outcome :=
| Return (r : SignResponse)
| HTTPException (status_code : N) (detail : Py.str).

Definition HTTP_404_NOT_FOUND : N := 404.
Definition HTTP_500_INTERNAL_SERVER_ERROR : N := 500.

Section Endpoints.

Variable unicode_lower : Py.str -> Py.str.

Definition sign_attached (request : SignRequest) (w : World) : list call * outcome :=
  match HelperSignature.attached_signed_data unicode_lower
          (data request) (serial_number request) w with
  | (t, inr s) => (t, Return {| signed_data := s; status := Py.lit "succes" |})
  | (t, inl ve) =>
    if Py.isinstance_ValueError ve
    then (t, HTTPException HTTP_404_NOT_FOUND
               (Py.lit "Ошибка при создании прикреплённой подписи: "
                ++ Py.str_of_exn ve))
    else (t, HTTPException HTTP_500_INTERNAL_SERVER_ERROR
               (Py.lit "Общая ошибка при подписании прикреплённой подписью: "
                ++ Py.str_of_exn ve))
  end.

Definition sign_unpinned (request : SignRequest) (w : World) : list call * outcome :=
  match HelperSignature.unpinned_signed_data unicode_lower
          (data request) (serial_number request) w with
  | (t, inr s) => (t, Return {| signed_data := s; status := Py.lit "success" |})
  | (t, inl ve) =>
    if Py.isinstance_ValueError ve
    then (t, HTTPException HTTP_404_NOT_FOUND
               (Py.lit "Ошибка валидации при подписании откреплённой подписью: "
                ++ Py.str_of_exn ve))
    else (t, HTTPException HTTP_500_INTERNAL_SERVER_ERROR
               (Py.lit "Ошибка при подписании откреплённой подписью: "
                ++ Py.str_of_exn ve))
  end.

End Endpoints.

(** ** A concrete world, for examples *)

Module Sample.

(** The instance of [unicode_lower] used in the examples, which only
    handle ASCII serial numbers. *)
Definition no_tables (s : Py.str) : Py.str := s.

(** A store with two certificates where every call succeeds. *)
Definition healthy : World := {|
  fails := fun _ => None;
  certificates :=
    [ {| SerialNumber := Py.lit "01FF"; SubjectName := Py.lit "CN=Other" |};
      {| SerialNumber := Py.lit "ab12"; SubjectName := Py.lit "CN=Test" |} ];
  now := 1730000000;
  signature := fun _ _ => Py.lit "MIIB"
|}.

(** The same store when the signing call is rejected. *)
Definition rejecting : World := {|
  fails := fun c =>
    match c with
    | SignCades _ _ _ _ _ => Some (Py.lit "(-2146893802, 'Keyset does not exist')")
    | _ => None
    end;
  certificates := certificates healthy;
  now := now healthy;
  signature := signature healthy
|}.

Definition hello : SignRequest :=
  {| data := Py.lit "hello"; serial_number := Py.lit "AB12" |}.

(** The payload is [{"a": 1}]. *)
Definition absent : SignRequest :=
  {| data := [0x7B; 0x22; 0x61; 0x22; 0x3A; 0x20; 0x31; 0x7D];
     serial_number := Py.lit "ZZZZ" |}.

(** A payload with one character outside ASCII: [e] with an acute
    accent. *)
Definition accented : SignRequest :=
  {| data := [0xE9]; serial_number := Py.lit "AB12" |}.

Definition accented_absent : SignRequest :=
  {| data := [0xE9]; serial_number := Py.lit "ZZZZ" |}.

End Sample.

(** ** Notions used to state the properties *)

(** [s] with every carriage return and line feed removed. *)
Definition strip_newlines (s : Py.str) : Py.str :=
  filter (fun c => negb ((c =? 0x0D) || (c =? 0x0A))) s.

(** [s] with every space, carriage return and line feed removed. *)
Definition strip_whitespace (s : Py.str) : Py.str :=
  filter (fun c => negb ((c =? 0x20) || (c =? 0x0D) || (c =? 0x0A))) s.

(** Two payloads that differ only in spaces and line breaks. *)
Definition differ_only_in_whitespace (a b : Py.str) : Prop :=
  strip_whitespace a = strip_whitespace b.

(** The text of a [bytes] value that holds ASCII only. *)
Definition as_text (b : Py.bytes) : Py.str := b.

(** [sub] occurs in [s]. *)
Definition mentions (s sub : Py.str) : Prop :=
  exists before after, s = before ++ sub ++ after.

(** The two signature modes of the service, one per endpoint. *)
Inductive SignatureMode :=
| Attached
| Detached.

Definition content_of (mode : SignatureMode) : Py.str -> Py.exn + Py.str :=
  match mode with
  | Attached => HelperSignature.attached_content
  | Detached => HelperSignature.unpinned_content
  end.

Definition helper_of (unicode_lower : Py.str -> Py.str) (mode : SignatureMode)
  : Py.str -> Py.str -> M Py.str :=
  match mode with
  | Attached => HelperSignature.attached_signed_data unicode_lower
  | Detached => HelperSignature.unpinned_signed_data unicode_lower
  end.

Definition endpoint (unicode_lower : Py.str -> Py.str) (mode : SignatureMode)
  : SignRequest -> World -> list call * outcome :=
  match mode with
  | Attached => sign_attached unicode_lower
  | Detached => sign_unpinned unicode_lower
  end.

(** The status code of an outcome; a returned model is a 200. *)
Definition status_code_of (o : outcome) : N :=
  match o with
  | Return _ => 200
  | HTTPException code _ => code
  end.

(** *** The calls of one signing, as a straight line

    [signed_data] makes its calls in a fixed order and stops at the first
    one that fails.  The order is written out here once; the properties
    below are read off it. *)

(** The calls of [cs] in order, up to and with the first that fails, and
    the text of that failure. *)
Fixpoint attempt (w : World) (cs : list call) : list call * option Py.str :=
  match cs with
  | [] => ([], None)
  | c :: rest =>
    match fails w c with
    | Some text => ([c], Some text)
    | None => let (t, e) := attempt w rest in (c :: t, e)
    end
  end.

Definition store_script : list call :=
  [ Dispatch "CAdESCOM.STORE";
    Store_Open (Int 2) (Str (Py.lit "My")) (Int 2);
    Store_Certificates ].

(** The reads of the lookup from position [index] on, and what it finds. *)
Fixpoint lookup_script (unicode_lower : Py.str -> Py.str) (serial_number : Py.str)
         (index : nat) (certs : list Certificate)
  : list call * option (nat * Certificate) :=
  match certs with
  | [] => ([], None)
  | c :: rest =>
    if Py.str_eqb (Py.lower unicode_lower (SerialNumber c))
                  (Py.lower unicode_lower serial_number)
    then ([Certificate_SerialNumber index; Certificate_SubjectName index],
          Some (index, c))
    else let (t, r) := lookup_script unicode_lower serial_number (S index) rest in
         (Certificate_SerialNumber index :: t, r)
  end.

(** The one signed attribute: the signing time, read from the clock. *)
Definition signing_time (w : World) : Attribute :=
  {| Name := Int 0; Value := now w |}.

Definition signer_for (w : World) (index : nat) : Signer :=
  {| signer_Certificate := index; AuthenticatedAttributes2 := [signing_time w] |}.

Definition content_for (data : Py.str) : SignedData :=
  {| ContentEncoding := Int 1; Content := data |}.

Definition signing_script (w : World) (data : Py.str) (index : nat) : list call :=
  [ Dispatch "CAdESCOM.CPSigner";
    Signer_set_Certificate index;
    Dispatch "CAdESCOM.CPAttribute";
    Attribute_set_Name (Int 0);
    Attribute_set_Value (now w);
    AuthenticatedAttributes2_Add (signing_time w);
    Dispatch "CAdESCOM.CadesSignedData";
    SignedData_set_ContentEncoding (Int 1);
    SignedData_set_Content data;
    SignCades (content_for data) (signer_for w index) (Int 1) false (Int 0) ].

(** Everything [signed_data] calls between [CoInitialize] and
    [CoUninitialize] when nothing fails. *)
Definition script (unicode_lower : Py.str -> Py.str) (w : World)
           (data serial_number : Py.str) : list call :=
  let (reads, found) := lookup_script unicode_lower serial_number 0 (certificates w) in
  store_script ++ reads
  ++ match found with
     | Some (index, _) => signing_script w data index
     | None => []
     end.

(** What a run of calls leaves: the failure of the last call, or [r]. *)
Definition finish {A} (run : list call * option Py.str) (r : Py.exn + A)
  : list call * (Py.exn + A) :=
  match run with
  | (t, Some text) => (t, inl (Py.com_error text))
  | (t, None) => (t, r)
  end.

(** *** The lookup runs to the end of the store and finds nothing *)

(** COM starts and the store opens and gives its certificates. *)
Definition store_opens (w : World) : Prop :=
  fails w CoInitialize = None
  /\ Forall (fun c => fails w c = None) store_script.

(** Every certificate of the store can be read, and none has the serial
    number, letter case apart. *)
Definition lookup_exhausts (unicode_lower : Py.str -> Py.str) (w : World)
           (serial_number : Py.str) : Prop :=
  store_opens w
  /\ forall k c, nth_error (certificates w) k = Some c ->
       fails w (Certificate_SerialNumber k) = None
       /\ Py.lower unicode_lower (SerialNumber c)
          <> Py.lower unicode_lower serial_number.

(** A call that reads a certificate during the lookup. *)
Definition certificate_read (c : call) : bool :=
  match c with
  | Certificate_SerialNumber _ | Certificate_SubjectName _ => true
  | _ => false
  end.

(** A call that opens or closes the COM library, or closes the store. *)
Definition bracket_call (c : call) : bool :=
  match c with
  | CoInitialize | CoUninitialize | Store_Close => true
  | _ => false
  end.

(** *** Letter case and substrings *)

(** Two ASCII characters that are the same letter in either case, or the
    same character. *)
Definition ascii_case_variant (x y : N) : Prop :=
  x < 128 /\ y < 128
  /\ (x = y \/ (65 <= x <= 90 /\ y = x + 32) \/ (65 <= y <= 90 /\ x = y + 32)).

(** The case-insensitive comparison of the lookup: equal lower-case
    forms. *)
Definition same_but_for_case (unicode_lower : Py.str -> Py.str) (a b : Py.str) : Prop :=
  Py.lower unicode_lower a = Py.lower unicode_lower b.

Fixpoint starts_with (sub s : Py.str) : bool :=
  match sub, s with
  | [], _ => true
  | x :: sub', y :: s' => (x =? y) && starts_with sub' s'
  | _ :: _, [] => false
  end.

(** [sub in s], decided. *)
Fixpoint occurs (sub s : Py.str) : bool :=
  starts_with sub s
  || match s with
     | [] => false
     | _ :: s' => occurs sub s'
     end.

(** *** The signing call among the calls *)

Definition is_sign_cades (c : call) : bool :=
  match c with
  | SignCades _ _ _ _ _ => true
  | _ => false
  end.

Definition signing_setup (w : World) (data : Py.str) (index : nat) : list call :=
  [ Dispatch "CAdESCOM.CPSigner";
    Signer_set_Certificate index;
    Dispatch "CAdESCOM.CPAttribute";
    Attribute_set_Name (Int 0);
    Attribute_set_Value (now w);
    AuthenticatedAttributes2_Add (signing_time w);
    Dispatch "CAdESCOM.CadesSignedData";
    SignedData_set_ContentEncoding (Int 1);
    SignedData_set_Content data ].

(** *** Reading the codecs back

    Checks over all octets and all code points, and an inverse of
    [Py.b64encode]: devices for the proofs that content preparation
    loses nothing. *)

(** [p] holds of the [fuel] numbers from [x] on. *)
Fixpoint all_from (p : N -> bool) (fuel : nat) (x : N) : bool :=
  match fuel with
  | O => true
  | S f => p x && all_from p f (N.succ x)
  end.

(** [p] holds of every number below [n]. *)
Definition all_below (p : N -> bool) (n : N) : bool := all_from p (N.to_nat n) 0.

(** One code point that is not a surrogate survives UTF-8: what it is
    encoded to are octets, the decoder's tests on them pass and the code
    point is put together again. *)
Definition utf8_char_decodes (c : N) : bool :=
  Py.is_surrogate c
  || (forallb (fun x => x <? 256) (Py.utf8_char c)
      && match Py.utf8_decode_from 0 (Py.utf8_char c) with
         | inr [c'] => c' =? c
         | _ => false
         end).

(** The first two octets of a four-octet sequence, read off the bits of
    the code point above the low twelve: the decoder's tests on them pass
    and their payload bits are those bits. *)
Definition utf8_head_ok (hi : N) : bool :=
  (hi <? 16)
  || (let b0 := N.lor 0xF0 (N.shiftr hi 6) in
      let b1 := N.lor 0x80 (N.land hi 0x3F) in
      negb (b0 <? 0xF0) && (b0 <? 0xF5)
      && negb (negb (Py.is_cont b1) || ((b0 =? 0xF0) && (b1 <? 0x90))
               || ((b0 =? 0xF4) && (0x90 <=? b1)))
      && (N.land b0 7 =? N.shiftr hi 6) && (Py.low6 b1 =? N.land hi 0x3F)
      && (b0 <? 256) && (b1 <? 256)).

(** A continuation octet made of six bits gives them back. *)
Definition utf8_tail_ok (x : N) : bool :=
  let b := N.lor 0x80 x in
  Py.is_cont b && (Py.low6 b =? x) && (b <? 256).

Definition prepend_str (s : Py.str) (r : (N * N * string) + Py.str)
  : (N * N * string) + Py.str :=
  match r with
  | inl e => inl e
  | inr t => inr (s ++ t)
  end.

Fixpoint index_of (ch : N) (l : list N) (i : N) : option N :=
  match l with
  | [] => None
  | x :: r => if x =? ch then Some i else index_of ch r (N.succ i)
  end.

(** The six bits a base64 symbol stands for. *)
Definition b64_value (ch : N) : option N := index_of ch Py.b64_alphabet 0.

Definition octet1 (i1 i2 : N) : N := N.lor (N.shiftl i1 2) (N.shiftr i2 4).
Definition octet2 (i2 i3 : N) : N :=
  N.lor (N.shiftl (N.land i2 15) 4) (N.shiftr i3 2).
Definition octet3 (i3 i4 : N) : N := N.lor (N.shiftl (N.land i3 3) 6) i4.

(** The inverse of [Py.b64encode], four symbols at a time. *)
Fixpoint b64decode (s : Py.bytes) : option Py.bytes :=
  match s with
  | [] => Some []
  | a :: b :: c :: d :: rest =>
    match b64_value a, b64_value b with
    | Some i1, Some i2 =>
      if c =? Py.b64_pad then
        if d =? Py.b64_pad
        then match rest with [] => Some [octet1 i1 i2] | _ :: _ => None end
        else None
      else
        match b64_value c with
        | Some i3 =>
          if d =? Py.b64_pad
          then match rest with
               | [] => Some [octet1 i1 i2; octet2 i2 i3]
               | _ :: _ => None
               end
          else
            match b64_value d with
            | Some i4 =>
              option_map (fun t => octet1 i1 i2 :: octet2 i2 i3 :: octet3 i3 i4 :: t)
                         (b64decode rest)
            | None => None
            end
        | None => None
        end
    | _, _ => None
    end
  | _ => None
  end.

(** The second and third symbol of a group, as [Py.b64encode] computes
    their six bits. *)
Definition sextet2 (x y : N) : N := N.lor (N.shiftl (N.land x 3) 4) (N.shiftr y 4).
Definition sextet3 (y z : N) : N := N.lor (N.shiftl (N.land y 15) 2) (N.shiftr z 6).

Definition symbol_reads_back (i : N) : bool :=
  match b64_value (Py.b64_symbol i) with
  | Some j => (j =? i) && negb (Py.b64_symbol i =? Py.b64_pad)
  | None => false
  end.

Definition first_pair_reads_back (x : N) : bool :=
  all_below (fun y =>
    (N.shiftr x 2 <? 64) && (sextet2 x y <? 64)
    && (N.shiftl (N.land x 3) 4 <? 64)
    && (octet1 (N.shiftr x 2) (sextet2 x y) =? x)
    && (octet1 (N.shiftr x 2) (N.shiftl (N.land x 3) 4) =? x)
    && (N.land (sextet2 x y) 15 =? N.shiftr y 4)) 256.

Definition second_pair_reads_back (y : N) : bool :=
  all_below (fun z =>
    (sextet3 y z <? 64) && (N.land z 63 <? 64)
    && (N.shiftl (N.land y 15) 2 <? 64)
    && (N.shiftr (sextet3 y z) 2 =? N.land y 15)
    && (N.shiftr (N.shiftl (N.land y 15) 2) 2 =? N.land y 15)
    && (octet3 (sextet3 y z) (N.land z 63) =? z)
    && (N.lor (N.shiftl (N.shiftr y 4) 4) (N.land y 15) =? y)) 256.

Definition octet (x : N) : Prop := x < 256.

Definition b64_char (ch : N) : Prop := In ch Py.b64_alphabet \/ ch = Py.b64_pad.

(** * Properties *)

(** ** Codecs *)

Section CodecFacts.

Import Py.

Lemma push_inr c r s : r = inr s -> push c r = inr (c :: s).
Proof. intros ->. reflexivity. Qed.

Lemma ascii_decode_from_ascii b :
  Forall (fun x => x < 128) b -> forall pos, ascii_decode_from pos b = inr b.
Proof.
  induction 1 as [|x b Hx _ IH]; intros pos; simpl.
  - reflexivity.
  - apply N.ltb_lt in Hx. rewrite Hx. now apply push_inr.
Qed.

Lemma utf8_decode_from_ascii b :
  Forall (fun x => x < 128) b -> forall pos, utf8_decode_from pos b = inr b.
Proof.
  induction 1 as [|x b Hx _ IH]; intros pos; simpl.
  - reflexivity.
  - apply N.ltb_lt in Hx. rewrite Hx. now apply push_inr.
Qed.

Lemma nth_Forall {A} (P : A -> Prop) l d n :
  Forall P l -> P d -> P (nth n l d).
Proof.
  intros Hl Hd. revert n.
  induction Hl as [|x l Hx _ IH]; intros [|n]; simpl; auto.
Qed.

Lemma b64_alphabet_ascii : Forall (fun x => x < 128) b64_alphabet.
Proof. vm_compute. repeat constructor. Qed.

Lemma b64_symbol_ascii i : b64_symbol i < 128.
Proof.
  unfold b64_symbol. apply nth_Forall; [apply b64_alphabet_ascii | lia].
Qed.

Lemma b64_pad_ascii : b64_pad < 128.
Proof. reflexivity. Qed.

Create HintDb b64.
#[local] Hint Resolve b64_symbol_ascii b64_pad_ascii : b64.

(** The encoder walks its input three octets at a time, so the
    induction carries the three alignments together. *)
Lemma b64encode_ascii_aligned b :
  Forall (fun x => x < 128) (b64encode b)
  /\ (forall x, Forall (fun x => x < 128) (b64encode (x :: b)))
  /\ (forall x y, Forall (fun x => x < 128) (b64encode (x :: y :: b))).
Proof.
  induction b as [|z b (IH0 & IH1 & IH2)].
  - repeat split; intros; simpl; repeat constructor; auto with b64.
  - repeat split; intros; auto.
    simpl. repeat (constructor; auto with b64).
Qed.

Lemma b64encode_ascii b : Forall (fun x => x < 128) (b64encode b).
Proof. apply b64encode_ascii_aligned. Qed.

(** Decoding base64 output never fails and changes nothing. *)
Lemma decode_ascii_b64encode b :
  decode_ascii (b64encode b) = inr (as_text (b64encode b)).
Proof.
  unfold decode_ascii.
  now rewrite (ascii_decode_from_ascii _ (b64encode_ascii b)).
Qed.

Lemma decode_utf8_b64encode b :
  decode_utf8 (b64encode b) = inr (as_text (b64encode b)).
Proof.
  unfold decode_utf8.
  now rewrite (utf8_decode_from_ascii _ (b64encode_ascii b)).
Qed.

Lemma ascii_encode_from_ascii s :
  forallb is_ascii s = true -> forall pos, ascii_encode_from pos s = inr s.
Proof.
  induction s as [|c s IH]; simpl; intros H pos.
  - reflexivity.
  - apply andb_prop in H as [Hc Hs]. rewrite Hc. now apply push_inr, IH.
Qed.

Lemma ascii_encode_from_non_ascii s :
  forallb is_ascii s = false ->
  forall pos, exists st en,
    ascii_encode_from pos s = inl (st, en, "ordinal not in range(128)"%string).
Proof.
  induction s as [|c s IH]; simpl; intros H pos.
  - discriminate.
  - destruct (is_ascii c) eqn:Hc; simpl in H.
    + destruct (IH H (pos + 1)) as (st & en & E). rewrite E. now exists st, en.
    + now eexists _, _.
Qed.

Lemma forallb_is_ascii_false s :
  Exists (fun c => 128 <= c) s -> forallb is_ascii s = false.
Proof.
  induction 1 as [c s Hc | c s _ IH]; simpl.
  - unfold is_ascii. apply N.ltb_ge in Hc. now rewrite Hc.
  - rewrite IH. apply andb_false_r.
Qed.

Lemma encode_ascii_ascii s :
  forallb is_ascii s = true -> encode_ascii s = inr s.
Proof.
  intros H. unfold encode_ascii. now rewrite ascii_encode_from_ascii.
Qed.

Lemma encode_ascii_non_ascii s :
  Exists (fun c => 128 <= c) s ->
  exists st en,
    encode_ascii s = inl (UnicodeEncodeError "ascii" s st en "ordinal not in range(128)").
Proof.
  intros H. unfold encode_ascii.
  destruct (ascii_encode_from_non_ascii s (forallb_is_ascii_false s H) 0)
    as (st & en & E).
  rewrite E. now exists st, en.
Qed.

Lemma utf8_encode_from_scalar s :
  Forall scalar_value s ->
  forall pos, utf8_encode_from pos s = inr (flat_map utf8_char s).
Proof.
  induction 1 as [|c s [_ Hc] _ IH]; intros pos; simpl.
  - reflexivity.
  - rewrite Hc, IH. reflexivity.
Qed.

Lemma encode_utf8_scalar s :
  Forall scalar_value s -> encode_utf8 s = inr (flat_map utf8_char s).
Proof.
  intros H. unfold encode_utf8. now rewrite utf8_encode_from_scalar.
Qed.

(** *** [replace] *)

Lemma replace_same c s : replace c [c] s = s.
Proof.
  unfold replace. induction s as [|x s IH]; simpl.
  - reflexivity.
  - destruct (x =? c) eqn:E; simpl; rewrite IH.
    + apply N.eqb_eq in E. now subst.
    + reflexivity.
Qed.

Lemma replace_empty c s : replace c [] s = filter (fun x => negb (x =? c)) s.
Proof.
  unfold replace. induction s as [|x s IH]; simpl.
  - reflexivity.
  - destruct (x =? c); simpl; now rewrite IH.
Qed.

Lemma filter_filter {A} (p q : A -> bool) l :
  filter p (filter q l) = filter (fun x => q x && p x) l.
Proof.
  induction l as [|x l IH]; simpl.
  - reflexivity.
  - destruct (q x); simpl; [destruct (p x)|]; now rewrite IH.
Qed.

Lemma filter_idempotent {A} (p : A -> bool) l :
  filter p (filter p l) = filter p l.
Proof.
  rewrite filter_filter. apply filter_ext. intros x. now destruct (p x).
Qed.

End CodecFacts.

(** *** The codecs on a few inputs, as CPython answers them *)

Example b64encode_hello :
  Py.b64encode (Py.octets "hello") = Py.octets "aGVsbG8=".
Proof. reflexivity. Qed.

Example b64encode_one_octet : Py.b64encode (Py.octets "a") = Py.octets "YQ==".
Proof. reflexivity. Qed.

Example encode_utf8_sample :
  Py.encode_utf8 [0x61; 0x416; 0x20AC; 0x1F600]
  = inr [0x61; 0xD0; 0x96; 0xE2; 0x82; 0xAC; 0xF0; 0x9F; 0x98; 0x80].
Proof. reflexivity. Qed.

Example encode_ascii_accent_message :
  match Py.encode_ascii [0xE9] with
  | inl e => Py.str_of_exn e
  | inr _ => []
  end
  = Py.lit "'ascii' codec can't encode character '\xe9' in position 0: ordinal not in range(128)".
Proof. reflexivity. Qed.

Example encode_ascii_run_message :
  match Py.encode_ascii [0x61; 0xE9; 0x416; 0x62] with
  | inl e => Py.str_of_exn e
  | inr _ => []
  end
  = Py.lit "'ascii' codec can't encode characters in position 1-2: ordinal not in range(128)".
Proof. reflexivity. Qed.

Example encode_utf8_surrogate_message :
  match Py.encode_utf8 [0x61; 0xD800] with
  | inl e => Py.str_of_exn e
  | inr _ => []
  end
  = Py.lit "'utf-8' codec can't encode character '\ud800' in position 1: surrogates not allowed".
Proof. reflexivity. Qed.

Example decode_utf8_truncated :
  Py.decode_utf8 [0x61; 0xE2; 0x82]
  = inl (Py.UnicodeDecodeError "utf-8" [0x61; 0xE2; 0x82] 1 3 "unexpected end of data").
Proof. reflexivity. Qed.

Example lower_hex_serial :
  Py.lower Sample.no_tables (Py.lit "01AbCdEF") = Py.lit "01abcdef".
Proof. reflexivity. Qed.

(** ** Content preparation *)

Lemma normalize_strip_newlines s :
  HelperSignature.normalize s = strip_newlines s.
Proof.
  unfold HelperSignature.normalize, strip_newlines.
  rewrite replace_same, !replace_empty, filter_filter.
  apply filter_ext. intros c.
  now destruct (c =? 0x0A), (c =? 0x0D).
Qed.

(** C8. Detached-mode normalization is idempotent: normalizing a string
    that is already normalized changes nothing. *)
Theorem normalize_idempotent (s : Py.str) :
  HelperSignature.normalize (HelperSignature.normalize s)
  = HelperSignature.normalize s.
Proof.
  rewrite !normalize_strip_newlines. apply filter_idempotent.
Qed.

(** Detached-mode preparation, with the normalization written as a
    filter and the decoding of the base64 octets done. *)
Lemma unpinned_content_stripped s :
  HelperSignature.unpinned_content s
  = match Py.encode_utf8 (strip_newlines s) with
    | inl e => inl e
    | inr octets => inr (as_text (Py.b64encode octets))
    end.
Proof.
  unfold HelperSignature.unpinned_content.
  rewrite normalize_strip_newlines.
  destruct (Py.encode_utf8 (strip_newlines s)); [reflexivity|].
  apply decode_utf8_b64encode.
Qed.

(** C9. The detached-mode content is the base64 text of the UTF-8
    encoding of the payload without its carriage returns and line feeds:
    normalization removes exactly those two characters and keeps every
    other one, spaces and tabs included, in place. *)
Theorem unpinned_content_base64_of_stripped (s : Py.str) :
  HelperSignature.normalize s = strip_newlines s
  /\ HelperSignature.unpinned_content s
     = match Py.encode_utf8 (strip_newlines s) with
       | inl e => inl e
       | inr octets => inr (as_text (Py.b64encode octets))
       end.
Proof.
  split.
  - apply normalize_strip_newlines.
  - apply unpinned_content_stripped.
Qed.

(** ** The helper's calls *)

Lemma str_eqb_eq a : forall b, Py.str_eqb a b = true <-> a = b.
Proof.
  induction a as [|x a IH]; intros [|y b]; simpl; split; try easy.
  - intros H. apply andb_prop in H as [Hx Hr].
    apply N.eqb_eq in Hx. apply IH in Hr. now subst.
  - intros [= -> ->]. rewrite N.eqb_refl. now apply IH.
Qed.

Lemma bind_invoke {A} c (k : M A) w :
  bind (invoke c) (fun _ => k) w
  = match fails w c with
    | Some text => ([c], inl (Py.com_error text))
    | None => let (t, r) := k w in (c :: t, r)
    end.
Proof.
  unfold bind, invoke. destruct (fails w c); [reflexivity|].
  now destruct (k w).
Qed.

Lemma bind_asks {A B} (f : World -> A) (k : A -> M B) w :
  bind (asks f) k w = k (f w) w.
Proof. unfold bind, asks. simpl. now destruct (k (f w) w). Qed.

Lemma attempt_app w a b :
  attempt w (a ++ b)
  = match attempt w a with
    | (t, Some e) => (t, Some e)
    | (t, None) => let (t', e) := attempt w b in (t ++ t', e)
    end.
Proof.
  induction a as [|c a IH]; simpl.
  - now destruct (attempt w b).
  - destruct (fails w c); [reflexivity|].
    rewrite IH. destruct (attempt w a) as [t [e|]]; [reflexivity|].
    now destruct (attempt w b).
Qed.

(** *** [attempt] *)

Lemma attempt_all_succeed w cs :
  Forall (fun c => fails w c = None) cs -> attempt w cs = (cs, None).
Proof.
  induction 1 as [|c cs Hc _ IH]; simpl.
  - reflexivity.
  - now rewrite Hc, IH.
Qed.

Lemma attempt_none w cs :
  snd (attempt w cs) = None -> Forall (fun c => fails w c = None) cs.
Proof.
  induction cs as [|c cs IH]; simpl; [constructor|].
  destruct (fails w c) eqn:Hc; [discriminate|].
  destruct (attempt w cs) as [t e]. simpl in *. auto.
Qed.

Lemma attempt_incl w cs c : In c (fst (attempt w cs)) -> In c cs.
Proof.
  induction cs as [|c0 cs IH]; simpl; [easy|].
  destruct (fails w c0).
  - simpl. tauto.
  - destruct (attempt w cs) as [t e]. simpl in *. tauto.
Qed.

(** A failure reported by [attempt] is the failure of a call it made. *)
Lemma attempt_some w cs text :
  snd (attempt w cs) = Some text ->
  exists c, In c (fst (attempt w cs)) /\ fails w c = Some text.
Proof.
  induction cs as [|c0 cs IH]; simpl; [discriminate|].
  destruct (fails w c0) eqn:Hc.
  - simpl. intros [= <-]. exists c0. auto.
  - destruct (attempt w cs) as [t e]. simpl in *. intros He.
    destruct (IH He) as (c & Hin & Hf). exists c. auto.
Qed.

(** No call is made after one that failed. *)
Lemma attempt_failing_call w cs c text :
  In c (fst (attempt w cs)) -> fails w c = Some text ->
  exists text', snd (attempt w cs) = Some text'.
Proof.
  induction cs as [|c0 cs IH]; simpl; [easy|].
  destruct (fails w c0) eqn:Hc.
  - intros _ _. simpl. eauto.
  - destruct (attempt w cs) as [t e]. simpl in *.
    intros [-> | Hin] Hf; [congruence | auto].
Qed.

Lemma store_script_no_bracket :
  Forall (fun c => bracket_call c = false) store_script.
Proof. repeat constructor. Qed.

Lemma signing_script_no_bracket w data index :
  Forall (fun c => bracket_call c = false) (signing_script w data index).
Proof. repeat constructor. Qed.

Lemma certificate_read_no_bracket c :
  certificate_read c = true -> bracket_call c = false.
Proof. now destruct c. Qed.

Section ServiceFacts.

Variable ul : Py.str -> Py.str.

Lemma find_certificate_script serial certs :
  forall i w,
    HelperSignature.find_certificate ul serial i certs w
    = let (reads, found) := lookup_script ul serial i certs in
      finish (attempt w reads) (inr found).
Proof.
  induction certs as [|c certs IH]; intros i w; simpl.
  - reflexivity.
  - rewrite bind_invoke. unfold HelperSignature.lower.
    destruct (Py.str_eqb _ _).
    + simpl. destruct (fails w (Certificate_SerialNumber i)); [reflexivity|].
      rewrite bind_invoke.
      destruct (fails w (Certificate_SubjectName i)); reflexivity.
    + rewrite IH. destruct (lookup_script ul serial (S i) certs) as [reads found].
      simpl. destruct (fails w (Certificate_SerialNumber i)); [reflexivity|].
      now destruct (attempt w reads) as [t [e|]].
Qed.

Lemma signed_data_script data serial w :
  HelperSignature.signed_data ul data serial w
  = match fails w CoInitialize with
    | Some text => ([CoInitialize], inl (Py.com_error text))
    | None =>
      let (t, e) := attempt w (script ul w data serial) in
      (CoInitialize :: t ++ [CoUninitialize],
       match e with
       | Some text => inl (Py.com_error text)
       | None =>
         match snd (lookup_script ul serial 0 (certificates w)) with
         | None => inl (Py.ValueError (HelperSignature.not_found_message serial))
         | Some (index, _) =>
           inr (signature w (content_for data) (signer_for w index))
         end
       end)
    end.
Proof.
  unfold HelperSignature.signed_data, HelperSignature._com_context.
  rewrite bind_invoke. destruct (fails w CoInitialize); [reflexivity|].
  unfold try_finally, emit, HelperSignature._create_com_object, script.
  destruct (lookup_script ul serial 0 (certificates w)) as [reads found] eqn:L.
  simpl.
  rewrite bind_invoke. destruct (fails w (Dispatch "CAdESCOM.STORE")); [reflexivity|].
  rewrite bind_invoke. destruct (fails w (Store_Open _ _ _)); [reflexivity|].
  rewrite bind_invoke. destruct (fails w Store_Certificates); [reflexivity|].
  rewrite bind_asks.
  unfold bind at 1. rewrite find_certificate_script, L, attempt_app.
  destruct (attempt w reads) as [t [e|]]; simpl; [reflexivity|].
  destruct found as [[index c]|]; simpl.
  2:{ rewrite app_nil_r. reflexivity. }
  unfold signing_time, signer_for, content_for.
  repeat (rewrite ?bind_asks, bind_invoke;
          match goal with
          | |- context [fails w ?c] => destruct (fails w c)
          end; [reflexivity|]).
  rewrite bind_invoke.
  destruct (fails w (SignCades _ _ _ _ _)); reflexivity.
Qed.

(** *** [lookup_script] *)

Lemma lookup_script_reads serial certs :
  forall i, Forall (fun c => certificate_read c = true)
                   (fst (lookup_script ul serial i certs)).
Proof.
  induction certs as [|c certs IH]; intros i; simpl; [constructor|].
  destruct (Py.str_eqb _ _).
  - repeat constructor.
  - specialize (IH (S i)).
    destruct (lookup_script ul serial (S i) certs). simpl in *.
    now constructor.
Qed.

(** The lookup finds nothing and all its reads succeed exactly when
    every certificate can be read and none matches. *)
Lemma lookup_script_exhausted w serial certs :
  forall i,
    (snd (lookup_script ul serial i certs) = None
     /\ Forall (fun c => fails w c = None) (fst (lookup_script ul serial i certs)))
    <-> (forall k c, nth_error certs k = Some c ->
           fails w (Certificate_SerialNumber (i + k)) = None
           /\ Py.lower ul (SerialNumber c) <> Py.lower ul serial).
Proof.
  induction certs as [|c certs IH]; intros i; simpl.
  - split; [intros _ [|k] ? [=] | auto].
  - destruct (Py.str_eqb _ _) eqn:E.
    + split; [intros [[=] _]|]. intros H.
      destruct (H 0%nat c eq_refl) as [_ Hne].
      apply str_eqb_eq in E. contradiction.
    + specialize (IH (S i)).
      destruct (lookup_script ul serial (S i) certs) as [reads found].
      simpl in *. split.
      * intros [Hnone Hall]. apply Forall_cons_iff in Hall as [Hc Hrest].
        destruct IH as [IH _]. specialize (IH (conj Hnone Hrest)).
        intros [|k] c' Hk; simpl in Hk.
        -- injection Hk as <-. rewrite Nat.add_0_r. split; [assumption|].
           intros Heq. apply str_eqb_eq in Heq. congruence.
        -- replace (i + S k)%nat with (S i + k)%nat by lia. apply (IH k c' Hk).
      * intros H. destruct IH as [_ IH].
        destruct IH as [Hnone Hrest].
        { intros k c' Hk. simpl; replace (S (i + k))%nat with (i + S k)%nat by lia.
          exact (H (S k) c' Hk). }
        split; [assumption|]. constructor; [|assumption].
        rewrite <- (Nat.add_0_r i). exact (proj1 (H 0%nat c eq_refl)).
Qed.

Lemma script_no_bracket w data serial :
  Forall (fun c => bracket_call c = false) (script ul w data serial).
Proof.
  unfold script.
  pose proof (lookup_script_reads serial (certificates w) 0) as Hr.
  destruct (lookup_script ul serial 0 (certificates w)) as [reads found].
  simpl in Hr. rewrite !Forall_app. repeat split.
  - apply store_script_no_bracket.
  - eapply Forall_impl; [|exact Hr]. apply certificate_read_no_bracket.
  - destruct found as [[index c]|]; [apply signing_script_no_bracket | constructor].
Qed.

(** *** [signed_data] *)

(** With everything readable and no match, the call raises the
    not-found [ValueError]. *)
Lemma signed_data_exhausted data serial w :
  lookup_exhausts ul w serial ->
  HelperSignature.signed_data ul data serial w
  = (CoInitialize :: script ul w data serial ++ [CoUninitialize],
     inl (Py.ValueError (HelperSignature.not_found_message serial))).
Proof.
  intros [[Hinit Hstore] Hcerts].
  rewrite signed_data_script, Hinit.
  apply (lookup_script_exhausted w serial (certificates w) 0) in Hcerts
    as [Hnone Hreads].
  assert (Hs : Forall (fun c => fails w c = None) (script ul w data serial)).
  { unfold script.
    destruct (lookup_script ul serial 0 (certificates w)) as [reads found].
    simpl in Hnone, Hreads. subst found. rewrite app_nil_r. now apply Forall_app. }
  now rewrite (attempt_all_succeed w _ Hs), Hnone.
Qed.

(** The only [ValueError] the call raises is the not-found one, and it
    raises it only after an exhaustive lookup. *)
Lemma signed_data_ValueError data serial w e :
  snd (HelperSignature.signed_data ul data serial w) = inl e ->
  Py.isinstance_ValueError e = true ->
  lookup_exhausts ul w serial
  /\ e = Py.ValueError (HelperSignature.not_found_message serial).
Proof.
  rewrite signed_data_script.
  destruct (fails w CoInitialize) eqn:Hinit; [now intros [= <-]|].
  destruct (attempt w (script ul w data serial)) as [t err] eqn:Ha.
  simpl. destruct err as [text|]; [now intros [= <-]|].
  assert (Hs : Forall (fun c => fails w c = None) (script ul w data serial)).
  { apply attempt_none. now rewrite Ha. }
  unfold script in Hs.
  destruct (lookup_script ul serial 0 (certificates w)) as [reads found] eqn:L.
  simpl. destruct found as [[index c]|]; [discriminate|].
  intros [= <-] _. split; [|reflexivity].
  rewrite app_nil_r in Hs. apply Forall_app in Hs as [Hstore Hreads].
  split; [now split|].
  apply (lookup_script_exhausted w serial (certificates w) 0).
  now rewrite L.
Qed.

(** Every exception of the call is the not-found [ValueError] or a
    [com_error] of a call it made. *)
Lemma signed_data_raises data serial w e :
  snd (HelperSignature.signed_data ul data serial w) = inl e ->
  e = Py.ValueError (HelperSignature.not_found_message serial)
  \/ exists c text,
       e = Py.com_error text
       /\ In c (fst (HelperSignature.signed_data ul data serial w))
       /\ fails w c = Some text.
Proof.
  rewrite signed_data_script.
  destruct (fails w CoInitialize) eqn:Hinit.
  - intros [= <-]. right. exists CoInitialize, s. simpl. auto.
  - destruct (attempt w (script ul w data serial)) as [t err] eqn:Ha.
    simpl. destruct err as [text|].
    + intros [= <-]. right.
      destruct (attempt_some w (script ul w data serial) text) as (c & Hin & Hf).
      { now rewrite Ha. }
      rewrite Ha in Hin. simpl in Hin.
      exists c, text. repeat split; auto.
      right. apply in_or_app. now left.
    + destruct (snd (lookup_script ul serial 0 (certificates w))) as [[index c]|];
        [discriminate|].
      intros [= <-]. now left.
Qed.

(** A call that was made and failed ends the signing with a
    [com_error]. *)
Lemma signed_data_failing_call data serial w c text :
  In c (fst (HelperSignature.signed_data ul data serial w)) ->
  c <> CoUninitialize -> fails w c = Some text ->
  exists text', snd (HelperSignature.signed_data ul data serial w)
                = inl (Py.com_error text').
Proof.
  rewrite signed_data_script.
  destruct (fails w CoInitialize) eqn:Hinit; [simpl; eauto|].
  destruct (attempt w (script ul w data serial)) as [t err] eqn:Ha.
  simpl. intros [<- | Hin] Hne Hf; [congruence|].
  apply in_app_or in Hin as [Hin | [<- | []]]; [|congruence].
  destruct (attempt_failing_call w (script ul w data serial) c text) as [text' He];
    [now rewrite Ha | assumption |].
  rewrite Ha in He. simpl in He. subst err. eauto.
Qed.

(** Every call of a signing is one of the bracket, a read of the lookup,
    or a call of the two fixed scripts. *)
Lemma signed_data_calls data serial w c :
  In c (fst (HelperSignature.signed_data ul data serial w)) ->
  bracket_call c = true \/ certificate_read c = true
  \/ In c store_script
  \/ exists index, In c (signing_script w data index).
Proof.
  rewrite signed_data_script.
  destruct (fails w CoInitialize); [intros [<- | []]; now left|].
  pose proof (attempt_incl w (script ul w data serial)) as Hin.
  destruct (attempt w (script ul w data serial)) as [t e].
  cbn [fst snd] in *. intros [<- | Hc]; [now left|].
  apply in_app_or in Hc as [Hc | [<- | []]]; [|now left].
  apply Hin in Hc. unfold script in Hc.
  pose proof (lookup_script_reads serial (certificates w) 0) as Hr.
  destruct (lookup_script ul serial 0 (certificates w)) as [reads found].
  apply in_app_or in Hc as [Hc | Hc]; [auto|].
  apply in_app_or in Hc as [Hc | Hc].
  - rewrite Forall_forall in Hr. right. left. now apply Hr.
  - destruct found as [[index c']|]; [|destruct Hc]. eauto.
Qed.

(** What the lookup finds is the first match. *)
Lemma lookup_script_first serial certs :
  forall i j c,
    snd (lookup_script ul serial i certs) = Some (j, c) ->
    (i <= j)%nat
    /\ nth_error certs (j - i) = Some c
    /\ Py.lower ul (SerialNumber c) = Py.lower ul serial
    /\ forall k c', (k < j - i)%nat -> nth_error certs k = Some c' ->
         Py.lower ul (SerialNumber c') <> Py.lower ul serial.
Proof.
  induction certs as [|c0 certs IH]; intros i j c; simpl; [discriminate|].
  destruct (Py.str_eqb _ _) eqn:E.
  - simpl. intros [= <- <-]. rewrite Nat.sub_diag. simpl.
    apply str_eqb_eq in E. repeat split; auto. intros k c' Hk. lia.
  - specialize (IH (S i) j c).
    destruct (lookup_script ul serial (S i) certs) as [reads found].
    simpl in *. intros Hf. destruct (IH Hf) as (Hle & Hn & Hm & Hfirst).
    replace (j - i)%nat with (S (j - S i)) by lia.
    repeat split; auto; try lia.
    intros [|k] c' Hk Hc'; simpl in Hc'.
    + injection Hc' as <-. intros Heq. apply str_eqb_eq in Heq. congruence.
    + apply (Hfirst k c'); [lia | assumption].
Qed.

End ServiceFacts.

(** ** The endpoints *)

Lemma starts_with_app sub rest : starts_with sub (sub ++ rest) = true.
Proof.
  induction sub as [|x sub IH]; simpl; [reflexivity|].
  now rewrite N.eqb_refl.
Qed.

Lemma mentions_occurs s sub : mentions s sub -> occurs sub s = true.
Proof.
  intros (before & rest & ->).
  induction before as [|x before IH]; simpl.
  - destruct (sub ++ rest) eqn:E; simpl.
    + destruct sub; [reflexivity | discriminate].
    + rewrite <- E, starts_with_app. reflexivity.
  - rewrite IH. apply orb_true_r.
Qed.

(** Preparing the content raises nothing but a [ValueError]. *)
Lemma content_of_raises mode data e :
  content_of mode data = inl e -> Py.isinstance_ValueError e = true.
Proof.
  destruct mode; simpl;
    unfold HelperSignature.attached_content, HelperSignature.unpinned_content.
  - unfold Py.encode_ascii.
    destruct (Py.ascii_encode_from 0 data) as [[[st en] reason]|octets].
    + now intros [= <-].
    + rewrite decode_ascii_b64encode. discriminate.
  - unfold Py.encode_utf8.
    destruct (Py.utf8_encode_from 0 _) as [[[st en] reason]|octets].
    + now intros [= <-].
    + rewrite decode_utf8_b64encode. discriminate.
Qed.

Section EndpointFacts.

Variable ul : Py.str -> Py.str.

Lemma helper_of_content mode data serial w :
  helper_of ul mode data serial w
  = match content_of mode data with
    | inl e => ([], inl e)
    | inr content => HelperSignature.signed_data ul content serial w
    end.
Proof.
  destruct mode; simpl;
    unfold HelperSignature.attached_signed_data,
           HelperSignature.unpinned_signed_data, bind, lift;
    match goal with |- context [match ?c with inl _ => _ | inr _ => _ end] =>
      destruct c as [e|content] end; try reflexivity;
    now destruct (HelperSignature.signed_data ul content serial w).
Qed.

(** What a handler makes of the helper's result. *)
Lemma endpoint_cases mode req w :
  fst (endpoint ul mode req w)
  = fst (helper_of ul mode (data req) (serial_number req) w)
  /\ match snd (helper_of ul mode (data req) (serial_number req) w) with
     | inr s =>
       exists literal,
         snd (endpoint ul mode req w)
         = Return {| signed_data := s; status := literal |}
     | inl e =>
       exists prefix,
         snd (endpoint ul mode req w)
         = HTTPException (if Py.isinstance_ValueError e
                          then HTTP_404_NOT_FOUND
                          else HTTP_500_INTERNAL_SERVER_ERROR)
                         (prefix ++ Py.str_of_exn e)
     end.
Proof.
  destruct mode; simpl; unfold sign_attached, sign_unpinned;
    match goal with |- context [fst (?h ul ?d ?s w)] =>
      destruct (h ul d s w) as [t [e|s']] end; cbn [fst snd];
    try destruct (Py.isinstance_ValueError e); cbn [fst snd];
    (split; [reflexivity | eexists; reflexivity]).
Qed.


(** C1 (as amended). On the unpinned endpoint a request that completes
    signing gets the status [success], with the helper's result as
    [signed_data]. *)
Theorem sign_unpinned_status_success (req : SignRequest) (w : World)
        (t : list call) (r : SignResponse) :
  sign_unpinned ul req w = (t, Return r) ->
  status r = Py.lit "success"
  /\ HelperSignature.unpinned_signed_data ul (data req) (serial_number req) w
     = (t, inr (signed_data r)).
Proof.
  unfold sign_unpinned.
  destruct (HelperSignature.unpinned_signed_data ul _ _ w) as [t' [e|s]].
  - destruct (Py.isinstance_ValueError e); discriminate.
  - intros [= <- <-]. split; reflexivity.
Qed.

(** C3 (as amended). The 404 response is given exactly when a
    [ValueError] is raised: preparing the content fails, or the lookup
    runs through the whole store and finds no match.  A call into COM
    that fails, the signing call included, gives the 500 response. *)
Theorem not_found_response_causes (mode : SignatureMode) (req : SignRequest)
        (w : World) :
  (status_code_of (snd (endpoint ul mode req w)) = HTTP_404_NOT_FOUND
   <-> (exists e, content_of mode (data req) = inl e)
       \/ lookup_exhausts ul w (serial_number req))
  /\ (forall c text,
        In c (fst (endpoint ul mode req w)) -> c <> CoUninitialize ->
        fails w c = Some text ->
        status_code_of (snd (endpoint ul mode req w))
        = HTTP_500_INTERNAL_SERVER_ERROR).
Proof.
  destruct (endpoint_cases mode req w) as [Ht Hr].
  rewrite Ht. clear Ht.
  rewrite helper_of_content in *.
  destruct (content_of mode (data req)) as [e|content] eqn:Hc.
  - cbn [fst snd] in *. destruct Hr as [prefix ->].
    rewrite (content_of_raises _ _ _ Hc). cbn. split.
    + split; eauto.
    + intros c text [].
  - destruct (snd (HelperSignature.signed_data ul content (serial_number req) w))
      as [e|s] eqn:Hs.
    + destruct Hr as [prefix ->]. cbn [status_code_of]. split.
      * destruct (Py.isinstance_ValueError e) eqn:He.
        -- split; [|reflexivity]. intros _. right.
           now apply (signed_data_ValueError ul content _ w e).
        -- split; [discriminate|]. intros [[e' [=]] | Hx].
           rewrite (signed_data_exhausted ul content _ w Hx) in Hs.
           injection Hs as <-. discriminate.
      * intros c text Hin Hne Hf.
        destruct (signed_data_failing_call ul content _ w c text Hin Hne Hf)
          as [text' Ht'].
        rewrite Hs in Ht'. injection Ht' as ->. reflexivity.
    + destruct Hr as [literal ->]. cbn [status_code_of]. split.
      * split; [discriminate|]. intros [[e' [=]] | Hx].
        rewrite (signed_data_exhausted ul content _ w Hx) in Hs. discriminate.
      * intros c text Hin Hne Hf.
        destruct (signed_data_failing_call ul content _ w c text Hin Hne Hf)
          as [text' Ht'].
        rewrite Hs in Ht'. discriminate.
Qed.

(** C4 (as amended). When the payload passes content preparation and
    the lookup runs through the whole store without a match, the helper
    raises the not-found [ValueError] and nothing else, and the handler
    answers 404 with a detail that holds the requested serial number. *)
Theorem absent_serial_not_found (mode : SignatureMode) (req : SignRequest)
        (w : World) (content : Py.str) :
  content_of mode (data req) = inr content ->
  lookup_exhausts ul w (serial_number req) ->
  snd (helper_of ul mode (data req) (serial_number req) w)
  = inl (Py.ValueError (HelperSignature.not_found_message (serial_number req)))
  /\ exists detail,
       snd (endpoint ul mode req w) = HTTPException HTTP_404_NOT_FOUND detail
       /\ mentions detail (serial_number req).
Proof.
  intros Hc Hx.
  destruct (endpoint_cases mode req w) as [_ Hr].
  rewrite helper_of_content, Hc in *.
  rewrite (signed_data_exhausted ul content _ w Hx) in *.
  cbn [snd] in *. split; [reflexivity|].
  destruct Hr as [prefix ->]. cbn.
  eexists. split; [reflexivity|].
  unfold mentions, HelperSignature.not_found_message.
  exists (prefix ++ Py.lit "Подходящий сертификат с серийным номером "),
         (Py.lit " не найден!").
  now rewrite <- !app_assoc.
Qed.

(** C5. Two serial numbers with the same lower-case form resolve alike:
    the lookup makes the same reads and ends with the same certificate,
    the same failure, or no certificate for both. *)
Theorem resolution_ignores_case (s1 s2 : Py.str) (w : World) :
  same_but_for_case ul s1 s2 ->
  HelperSignature.find_certificate ul s1 0 (certificates w) w
  = HelperSignature.find_certificate ul s2 0 (certificates w) w.
Proof.
  unfold same_but_for_case. intros H.
  generalize 0%nat. generalize (certificates w).
  induction l as [|c certs IH]; intros i; simpl.
  - reflexivity.
  - unfold bind, HelperSignature.lower. rewrite H.
    destruct (invoke (Certificate_SerialNumber i) w) as [t [e|[]]];
      [reflexivity|].
    destruct (Py.str_eqb _ _); [reflexivity|]. now rewrite IH.
Qed.

(** Serial numbers in ASCII that differ in the case of letters only have
    the same lower-case form. *)
Lemma ascii_case_variants_same (a b : Py.str) :
  Forall2 ascii_case_variant a b -> same_but_for_case ul a b.
Proof.
  unfold same_but_for_case, Py.lower. intros H.
  assert (Ha : forallb Py.is_ascii a = true).
  { induction H as [|x y a b (Hx & _) _ IH]; simpl; [reflexivity|].
    unfold Py.is_ascii at 1. apply N.ltb_lt in Hx. rewrite Hx, IH. reflexivity. }
  assert (Hb : forallb Py.is_ascii b = true).
  { clear Ha. induction H as [|x y a b (_ & Hy & _) _ IH]; simpl; [reflexivity|].
    unfold Py.is_ascii at 1. apply N.ltb_lt in Hy. rewrite Hy, IH. reflexivity. }
  rewrite Ha, Hb. clear Ha Hb.
  induction H as [|x y a b (_ & _ & Hxy) _ IH]; simpl; [reflexivity|].
  f_equal; [|exact IH].
  unfold Py.lower_ascii_char.
  destruct Hxy as [-> | [[Hx ->] | [Hy ->]]]; [reflexivity| |].
  - replace ((65 <=? x) && (x <=? 90)) with true
      by (symmetry; apply andb_true_intro; split; apply N.leb_le; lia).
    replace ((65 <=? x + 32) && (x + 32 <=? 90)) with false; [reflexivity|].
    symmetry. apply andb_false_intro2. apply N.leb_gt. lia.
  - replace ((65 <=? y) && (y <=? 90)) with true
      by (symmetry; apply andb_true_intro; split; apply N.leb_le; lia).
    replace ((65 <=? y + 32) && (y + 32 <=? 90)) with false; [reflexivity|].
    symmetry. apply andb_false_intro2. apply N.leb_gt. lia.
Qed.

(** C6 (as amended). What every signing call brackets is the COM
    library: when [CoInitialize] succeeds, the trace starts with it and
    ends with [CoUninitialize], on every path, and neither occurs in
    between; the store is never closed by a call of the helper.  When
    [CoInitialize] fails nothing else is called. *)
Theorem com_context_bracketed (data serial : Py.str) (w : World) :
  match fails w CoInitialize with
  | Some _ => fst (HelperSignature.signed_data ul data serial w) = [CoInitialize]
  | None =>
    exists inner,
      fst (HelperSignature.signed_data ul data serial w)
      = CoInitialize :: inner ++ [CoUninitialize]
      /\ Forall (fun c => bracket_call c = false) inner
  end.
Proof.
  rewrite signed_data_script.
  destruct (fails w CoInitialize); [reflexivity|].
  pose proof (script_no_bracket ul w data serial) as Hs.
  pose proof (attempt_incl w (script ul w data serial)) as Hin.
  destruct (attempt w (script ul w data serial)) as [t e].
  exists t. split; [reflexivity|].
  rewrite Forall_forall in *. intros c Hc. apply Hs, Hin, Hc.
Qed.

(** C7. The signer given to the signing call carries exactly one signed
    attribute, the signing time (attribute name 0) with the reading of
    the server's clock as its value; that is so whatever payload and
    serial number the request holds, so two requests get the same
    attribute, and no other attribute is ever added. *)
Theorem signing_time_only_attribute (data1 serial1 data2 serial2 : Py.str)
        (w : World) (content1 content2 : SignedData) (signer1 signer2 : Signer)
        (type1 type2 : value) (detached1 detached2 : bool)
        (encoding1 encoding2 : value) :
  In (SignCades content1 signer1 type1 detached1 encoding1)
     (fst (HelperSignature.signed_data ul data1 serial1 w)) ->
  In (SignCades content2 signer2 type2 detached2 encoding2)
     (fst (HelperSignature.signed_data ul data2 serial2 w)) ->
  AuthenticatedAttributes2 signer1
  = [ {| Name := SignatureEnum.value_of SignatureEnum.TIMER_ATTR_NAME;
         Value := now w |} ]
  /\ AuthenticatedAttributes2 signer2 = AuthenticatedAttributes2 signer1
  /\ (forall a,
        In (AuthenticatedAttributes2_Add a)
           (fst (HelperSignature.signed_data ul data1 serial1 w)) ->
        a = signing_time w).
Proof.
  assert (Hsign : forall data serial content signer type detached encoding,
             In (SignCades content signer type detached encoding)
                (fst (HelperSignature.signed_data ul data serial w)) ->
             AuthenticatedAttributes2 signer = [signing_time w]).
  { intros data serial content signer type detached encoding Hc.
    apply signed_data_calls in Hc as [Hc | [Hc | [Hc | [index Hc]]]];
      try discriminate.
    - simpl in Hc. intuition discriminate.
    - simpl in Hc.
      repeat (destruct Hc as [Hc | Hc]; [try discriminate|]); [|destruct Hc].
      injection Hc as _ <- _ _ _. reflexivity. }
  intros H1 H2. rewrite (Hsign _ _ _ _ _ _ _ H1), (Hsign _ _ _ _ _ _ _ H2).
  repeat split. intros a Ha.
  apply signed_data_calls in Ha as [Ha | [Ha | [Ha | [index Ha]]]];
    try discriminate.
  - simpl in Ha. intuition discriminate.
  - simpl in Ha.
    repeat (destruct Ha as [Ha | Ha]; [try discriminate|]); [|destruct Ha].
    now injection Ha as <-.
Qed.

(** C10. A payload with a character outside ASCII makes the attached
    helper raise a [UnicodeEncodeError], a [ValueError], before any call
    into COM, and the attached endpoint answers 404; the detached content
    preparation takes every payload of Unicode scalar values. *)
Theorem attached_only_ascii (payload text : Py.str) (serial : Py.str) (w : World) :
  Exists (fun c => 128 <= c) payload ->
  Forall Py.scalar_value text ->
  (exists first last,
      HelperSignature.attached_signed_data ul payload serial w
      = ([], inl (Py.UnicodeEncodeError "ascii" payload first last
                                         "ordinal not in range(128)"))
      /\ exists detail,
           sign_attached ul {| data := payload; serial_number := serial |} w
           = ([], HTTPException HTTP_404_NOT_FOUND detail))
  /\ (exists content,
        HelperSignature.unpinned_content text = inr content
        /\ HelperSignature.unpinned_signed_data ul text serial w
           = HelperSignature.signed_data ul content serial w).
Proof.
  intros Hbad Hgood. split.
  - destruct (encode_ascii_non_ascii payload Hbad) as (first & last & E).
    exists first, last.
    assert (Hrun : HelperSignature.attached_signed_data ul payload serial w
                   = ([], inl (Py.UnicodeEncodeError "ascii" payload first last
                                 "ordinal not in range(128)"))).
    { unfold HelperSignature.attached_signed_data,
             HelperSignature.attached_content, bind, lift.
      now rewrite E. }
    split; [exact Hrun|].
    unfold sign_attached. cbn [data serial_number]. rewrite Hrun.
    cbn [Py.isinstance_ValueError]. eexists. reflexivity.
  - assert (Hn : Forall Py.scalar_value (HelperSignature.normalize text)).
    { rewrite normalize_strip_newlines. unfold strip_newlines.
      rewrite Forall_forall in *. intros c Hc.
      apply filter_In in Hc as [Hc _]. auto. }
    exists (as_text (Py.b64encode (flat_map Py.utf8_char (HelperSignature.normalize text)))).
    assert (Hcontent : HelperSignature.unpinned_content text
                       = inr (as_text (Py.b64encode
                                (flat_map Py.utf8_char (HelperSignature.normalize text))))).
    { unfold HelperSignature.unpinned_content.
      rewrite (encode_utf8_scalar _ Hn). apply decode_utf8_b64encode. }
    split; [exact Hcontent|].
    change (HelperSignature.unpinned_signed_data ul text serial w)
      with (helper_of ul Detached text serial w).
    rewrite helper_of_content. cbn [content_of]. now rewrite Hcontent.
Qed.

(** ** Further properties of the helper *)

(** X1. The lookup returns the first certificate, in the store's order,
    whose serial number matches letter case apart. *)
Theorem first_match_wins (serial : Py.str) (w : World) (j : nat) (c : Certificate) :
  snd (HelperSignature.find_certificate ul serial 0 (certificates w) w)
  = inr (Some (j, c)) ->
  nth_error (certificates w) j = Some c
  /\ same_but_for_case ul (SerialNumber c) serial
  /\ forall k c', (k < j)%nat -> nth_error (certificates w) k = Some c' ->
       ~ same_but_for_case ul (SerialNumber c') serial.
Proof.
  rewrite find_certificate_script.
  pose proof (lookup_script_first ul serial (certificates w) 0 j c) as H.
  destruct (lookup_script ul serial 0 (certificates w)) as [reads found].
  destruct (attempt w reads) as [t [text|]]; simpl; [discriminate|].
  intros [= ->]. destruct (H eq_refl) as (_ & Hn & Hm & Hfirst).
  rewrite Nat.sub_0_r in *. unfold same_but_for_case. auto.
Qed.

(** X2. Every signing call is made with the same fixed parameters: the
    content is the data handed over with content encoding 1, the
    signature type is CAdES-BES (1), the detached flag is false and the
    output encoding is base64 (0). *)
Theorem sign_cades_parameters (data serial : Py.str) (w : World)
        (content : SignedData) (signer : Signer) (cades_type : value)
        (detached : bool) (encoding : value) :
  In (SignCades content signer cades_type detached encoding)
     (fst (HelperSignature.signed_data ul data serial w)) ->
  content = {| ContentEncoding := SignatureEnum.value_of SignatureEnum.CONTENT_ENCODING;
               Content := data |}
  /\ cades_type = SignatureEnum.value_of SignatureEnum.CADES_BES
  /\ detached = false
  /\ encoding = SignatureEnum.value_of SignatureEnum.CAPICOM_ENCODE_BASE64.
Proof.
  intros Hc.
  apply signed_data_calls in Hc as [Hc | [Hc | [Hc | [index Hc]]]];
    try discriminate.
  - simpl in Hc. intuition discriminate.
  - simpl in Hc.
    repeat (destruct Hc as [Hc | Hc]; [try discriminate|]); [|destruct Hc].
    injection Hc as <- _ <- <- <-. repeat split.
Qed.


End EndpointFacts.

(** X4. The attached-mode content of an ASCII payload is the base64 text of
    its octets, the payload itself being left as it is. *)
Theorem attached_content_base64 (s : Py.str) :
  forallb Py.is_ascii s = true ->
  HelperSignature.attached_content s = inr (as_text (Py.b64encode s)).
Proof.
  intros H. unfold HelperSignature.attached_content.
  rewrite (encode_ascii_ascii s H). apply decode_ascii_b64encode.
Qed.

(** X5. Payloads that differ only in carriage returns and line feeds get the
    same detached-mode content. *)
Theorem detached_content_ignores_line_breaks (a b : Py.str) :
  strip_newlines a = strip_newlines b ->
  HelperSignature.unpinned_content a = HelperSignature.unpinned_content b.
Proof.
  intros H.
  rewrite !unpinned_content_stripped. now rewrite H.
Qed.

(** ** Concrete runs *)

(** The sample store can be read to its end and holds no [ZZZZ]. *)
Lemma healthy_lacks_ZZZZ :
  lookup_exhausts Sample.no_tables Sample.healthy (Py.lit "ZZZZ").
Proof.
  split.
  - split; [reflexivity | repeat constructor].
  - intros [|[|[|k]]] c H; simpl in H; try discriminate;
      injection H as <-; (split; [reflexivity | vm_compute; discriminate]).
Qed.

(** C1, counterexample. A detached request that is signed gets a status
    that is not [succeeded]. *)
Lemma sign_unpinned_status_not_succeeded :
  exists t r,
    sign_unpinned Sample.no_tables Sample.hello Sample.healthy = (t, Return r)
    /\ status r <> Py.lit "succeeded".
Proof.
  eexists _, _. split.
  - vm_compute. reflexivity.
  - vm_compute. discriminate.
Qed.

(** C1, witness. The same request gets the status [success]. *)
Lemma sign_unpinned_status_success_witness :
  exists t r,
    sign_unpinned Sample.no_tables Sample.hello Sample.healthy = (t, Return r)
    /\ status r = Py.lit "success".
Proof.
  eexists _, _. split.
  - vm_compute. reflexivity.
  - eapply (fun H => proj1 (sign_unpinned_status_success
                              Sample.no_tables Sample.hello Sample.healthy _ _ H)).
    vm_compute. reflexivity.
Defined.

(** C2, at the failing input. The payloads [a b] and [ab] differ in one
    space only, and their detached-mode contents are [YSBi] and [YWI=]:
    the space is kept. *)
Lemma detached_content_keeps_spaces :
  differ_only_in_whitespace (Py.lit "a b") (Py.lit "ab")
  /\ HelperSignature.unpinned_content (Py.lit "a b") = inr (Py.lit "YSBi")
  /\ HelperSignature.unpinned_content (Py.lit "ab") = inr (Py.lit "YWI=")
  /\ HelperSignature.unpinned_content (Py.lit "a b")
     <> HelperSignature.unpinned_content (Py.lit "ab").
Proof.
  repeat split; try (vm_compute; reflexivity).
  vm_compute. discriminate.
Qed.

(** C3, counterexample. An attached request whose payload has an accented
    letter gets the 404 response though no call was made, and the store
    holds the certificate asked for. *)
Lemma not_found_response_without_lookup :
  status_code_of (snd (sign_attached Sample.no_tables Sample.accented Sample.healthy))
  = HTTP_404_NOT_FOUND
  /\ fst (sign_attached Sample.no_tables Sample.accented Sample.healthy) = []
  /\ ~ lookup_exhausts Sample.no_tables Sample.healthy
                       (serial_number Sample.accented).
Proof.
  repeat split; try (vm_compute; reflexivity).
  intros [_ H].
  destruct (H 1%nat {| SerialNumber := Py.lit "ab12"; SubjectName := Py.lit "CN=Test" |}
              eq_refl) as [_ Hne].
  apply Hne. vm_compute. reflexivity.
Qed.

(** C4, counterexample. The serial number is absent from the store, yet
    with an accented payload the attached helper raises an error that is
    not the not-found one, and the 404 detail does not hold the serial
    number. *)
Lemma non_ascii_payload_hides_absent_serial :
  lookup_exhausts Sample.no_tables Sample.healthy
                  (serial_number Sample.accented_absent)
  /\ exists e detail,
       snd (helper_of Sample.no_tables Attached (data Sample.accented_absent)
                      (serial_number Sample.accented_absent) Sample.healthy)
       = inl e
       /\ e <> Py.ValueError (HelperSignature.not_found_message
                                (serial_number Sample.accented_absent))
       /\ snd (endpoint Sample.no_tables Attached Sample.accented_absent Sample.healthy)
          = HTTPException HTTP_404_NOT_FOUND detail
       /\ ~ mentions detail (serial_number Sample.accented_absent).
Proof.
  split; [exact healthy_lacks_ZZZZ|].
  eexists _, _. split; [vm_compute; reflexivity|].
  split; [discriminate|].
  split; [vm_compute; reflexivity|].
  intros Hm. apply mentions_occurs in Hm. vm_compute in Hm. discriminate.
Qed.

(** C4, witness. The detached request for [ZZZZ] on the sample store. *)
Lemma absent_serial_not_found_witness :
  lookup_exhausts Sample.no_tables Sample.healthy (serial_number Sample.absent)
  /\ exists detail,
       snd (endpoint Sample.no_tables Detached Sample.absent Sample.healthy)
       = HTTPException HTTP_404_NOT_FOUND detail
       /\ mentions detail (serial_number Sample.absent).
Proof.
  split; [exact healthy_lacks_ZZZZ|].
  eapply (fun Hc => proj2 (absent_serial_not_found
                             Sample.no_tables Detached Sample.absent Sample.healthy
                             _ Hc healthy_lacks_ZZZZ)).
  vm_compute. reflexivity.
Defined.

(** C5, witness. [AB12] and [ab12] on the sample store. *)
Lemma resolution_ignores_case_witness :
  same_but_for_case Sample.no_tables (Py.lit "AB12") (Py.lit "ab12")
  /\ HelperSignature.find_certificate Sample.no_tables (Py.lit "AB12") 0
       (certificates Sample.healthy) Sample.healthy
     = HelperSignature.find_certificate Sample.no_tables (Py.lit "ab12") 0
         (certificates Sample.healthy) Sample.healthy.
Proof.
  assert (H : same_but_for_case Sample.no_tables (Py.lit "AB12") (Py.lit "ab12"))
    by (vm_compute; reflexivity).
  split; [exact H|].
  apply (resolution_ignores_case Sample.no_tables _ _ Sample.healthy H).
Defined.

(** C6, counterexample. A signing that succeeds opens the store and
    returns without any call that closes it. *)
Lemma store_opened_never_closed :
  In (Store_Open (Int 2) (Str (Py.lit "My")) (Int 2))
     (fst (HelperSignature.signed_data Sample.no_tables (Py.lit "aGVsbG8=")
             (Py.lit "AB12") Sample.healthy))
  /\ snd (HelperSignature.signed_data Sample.no_tables (Py.lit "aGVsbG8=")
            (Py.lit "AB12") Sample.healthy)
     = inr (Py.lit "MIIB")
  /\ ~ In Store_Close
       (fst (HelperSignature.signed_data Sample.no_tables (Py.lit "aGVsbG8=")
               (Py.lit "AB12") Sample.healthy)).
Proof.
  split; [|split].
  - vm_compute. tauto.
  - vm_compute. reflexivity.
  - intros H. vm_compute in H. intuition discriminate.
Qed.

(** C7, witness. Two signings with different payloads and serial
    numbers on the sample store. *)
Lemma signing_time_only_attribute_witness :
  In (SignCades (content_for (Py.lit "aGVsbG8=")) (signer_for Sample.healthy 1)
                (Int 1) false (Int 0))
     (fst (HelperSignature.signed_data Sample.no_tables (Py.lit "aGVsbG8=")
             (Py.lit "AB12") Sample.healthy))
  /\ In (SignCades (content_for (Py.lit "YWI=")) (signer_for Sample.healthy 0)
                   (Int 1) false (Int 0))
        (fst (HelperSignature.signed_data Sample.no_tables (Py.lit "YWI=")
                (Py.lit "01ff") Sample.healthy))
  /\ AuthenticatedAttributes2 (signer_for Sample.healthy 1)
     = [ {| Name := Int 0; Value := now Sample.healthy |} ]
  /\ AuthenticatedAttributes2 (signer_for Sample.healthy 0)
     = AuthenticatedAttributes2 (signer_for Sample.healthy 1).
Proof.
  assert (H1 : In (SignCades (content_for (Py.lit "aGVsbG8="))
                             (signer_for Sample.healthy 1) (Int 1) false (Int 0))
                  (fst (HelperSignature.signed_data Sample.no_tables
                          (Py.lit "aGVsbG8=") (Py.lit "AB12") Sample.healthy)))
    by (vm_compute; tauto).
  assert (H2 : In (SignCades (content_for (Py.lit "YWI="))
                             (signer_for Sample.healthy 0) (Int 1) false (Int 0))
                  (fst (HelperSignature.signed_data Sample.no_tables
                          (Py.lit "YWI=") (Py.lit "01ff") Sample.healthy)))
    by (vm_compute; tauto).
  destruct (signing_time_only_attribute Sample.no_tables _ _ _ _ _ _ _ _ _ _ _ _ _ _ _
              H1 H2) as (Ha & Hb & _).
  repeat split; assumption.
Defined.

(** C10, witness. An accented letter for the attached endpoint, the same
    letter and an emoji for the detached preparation. *)
Lemma attached_only_ascii_witness :
  Exists (fun c => 128 <= c) [0xE9]
  /\ Forall Py.scalar_value [0xE9; 0x1F600]
  /\ (exists detail,
        sign_attached Sample.no_tables Sample.accented Sample.healthy
        = ([], HTTPException HTTP_404_NOT_FOUND detail))
  /\ (exists content,
        HelperSignature.unpinned_content [0xE9; 0x1F600] = inr content).
Proof.
  assert (Hbad : Exists (fun c => 128 <= c) [0xE9])
    by (constructor; lia).
  assert (Hgood : Forall Py.scalar_value [0xE9; 0x1F600])
    by (repeat constructor; (lia || reflexivity)).
  destruct (attached_only_ascii Sample.no_tables [0xE9] [0xE9; 0x1F600]
              (Py.lit "AB12") Sample.healthy Hbad Hgood)
    as [(first & last & _ & Hresp) (content & Hcontent & _)].
  repeat split; [assumption | assumption | exact Hresp | now exists content].
Defined.

(** X1, witness. *)
Lemma first_match_wins_witness :
  snd (HelperSignature.find_certificate Sample.no_tables (Py.lit "AB12") 0
         (certificates Sample.healthy) Sample.healthy)
  = inr (Some (1%nat, {| SerialNumber := Py.lit "ab12";
                         SubjectName := Py.lit "CN=Test" |}))
  /\ nth_error (certificates Sample.healthy) 1
     = Some {| SerialNumber := Py.lit "ab12"; SubjectName := Py.lit "CN=Test" |}.
Proof.
  assert (H : snd (HelperSignature.find_certificate Sample.no_tables
                     (Py.lit "AB12") 0 (certificates Sample.healthy) Sample.healthy)
              = inr (Some (1%nat, {| SerialNumber := Py.lit "ab12";
                                     SubjectName := Py.lit "CN=Test" |})))
    by (vm_compute; reflexivity).
  split; [exact H|].
  exact (proj1 (first_match_wins Sample.no_tables _ Sample.healthy _ _ H)).
Defined.

(** X2, witness. *)
Lemma sign_cades_parameters_witness :
  In (SignCades (content_for (Py.lit "aGVsbG8=")) (signer_for Sample.healthy 1)
                (Int 1) false (Int 0))
     (fst (HelperSignature.signed_data Sample.no_tables (Py.lit "aGVsbG8=")
             (Py.lit "AB12") Sample.healthy))
  /\ content_for (Py.lit "aGVsbG8=")
     = {| ContentEncoding := Int 1; Content := Py.lit "aGVsbG8=" |}.
Proof.
  assert (H : In (SignCades (content_for (Py.lit "aGVsbG8="))
                            (signer_for Sample.healthy 1) (Int 1) false (Int 0))
                 (fst (HelperSignature.signed_data Sample.no_tables
                         (Py.lit "aGVsbG8=") (Py.lit "AB12") Sample.healthy)))
    by (vm_compute; tauto).
  split; [exact H|].
  exact (proj1 (sign_cades_parameters Sample.no_tables _ _ _ _ _ _ _ _ H)).
Defined.


(** X4, witness. *)
Lemma attached_content_base64_witness :
  forallb Py.is_ascii (Py.lit "hello") = true
  /\ HelperSignature.attached_content (Py.lit "hello")
     = inr (as_text (Py.b64encode (Py.lit "hello"))).
Proof.
  assert (H : forallb Py.is_ascii (Py.lit "hello") = true) by reflexivity.
  split; [exact H | exact (attached_content_base64 _ H)].
Defined.

(** X5, witness. *)
Lemma detached_content_ignores_line_breaks_witness :
  strip_newlines [0x61; 0x0A; 0x62] = strip_newlines [0x61; 0x62; 0x0D]
  /\ HelperSignature.unpinned_content [0x61; 0x0A; 0x62]
     = HelperSignature.unpinned_content [0x61; 0x62; 0x0D].
Proof.
  assert (H : strip_newlines [0x61; 0x0A; 0x62] = strip_newlines [0x61; 0x62; 0x0D])
    by reflexivity.
  split; [exact H | exact (detached_content_ignores_line_breaks _ _ H)].
Defined.

(** ** More about the calls of a signing *)

(** [attempt] makes a prefix of the calls it is given. *)
Lemma attempt_prefix w cs : exists rest, cs = fst (attempt w cs) ++ rest.
Proof.
  induction cs as [|c cs [rest IH]]; simpl.
  - now exists [].
  - destruct (fails w c).
    + now exists cs.
    + destruct (attempt w cs) as [t e]. simpl in *. exists rest. now f_equal.
Qed.


(** A call that was made and fails is the one whose failure is
    reported. *)
Lemma attempt_failing_call_text w cs c text :
  In c (fst (attempt w cs)) -> fails w c = Some text ->
  snd (attempt w cs) = Some text.
Proof.
  induction cs as [|c0 cs IH]; simpl; [easy|].
  destruct (fails w c0) eqn:Hc.
  - simpl. intros [<- | []] Hf. congruence.
  - destruct (attempt w cs) as [t e]. simpl in *.
    intros [-> | Hin] Hf; [congruence | auto].
Qed.

Lemma signing_script_last w data index :
  signing_script w data index
  = signing_setup w data index
    ++ [SignCades (content_for data) (signer_for w index) (Int 1) false (Int 0)]
  /\ Forall (fun c => is_sign_cades c = false) (signing_setup w data index).
Proof. split; [reflexivity | repeat constructor]. Qed.

Lemma certificate_read_not_sign c :
  certificate_read c = true -> is_sign_cades c = false.
Proof. now destruct c. Qed.

(** A prefix of [body ++ [x]] that holds a call [body] has none of is
    the whole list. *)
Lemma prefix_reaches_last {A} (p : A -> bool) (body t rest : list A) (x c : A) :
  body ++ [x] = t ++ rest ->
  Forall (fun a => p a = false) body ->
  In c t -> p c = true ->
  t = body ++ [x] /\ c = x.
Proof.
  revert t. induction body as [|b body IH]; intros t E Hb Hin Hp; simpl in *.
  - destruct t as [|a t]; [destruct Hin|].
    injection E as <- E. destruct t; [|discriminate].
    destruct Hin as [<- | []]. auto.
  - destruct t as [|a t]; [destruct Hin|].
    injection E as <- E. apply Forall_cons_iff in Hb as [Hb0 Hb].
    destruct Hin as [<- | Hin]; [congruence|].
    destruct (IH t E Hb Hin Hp) as [-> ->]. auto.
Qed.

Section TraceFacts.

Variable ul : Py.str -> Py.str.

(** The script is the calls that never sign, and then, when a
    certificate is found, the signing call. *)
Lemma script_shape w data serial :
  match snd (lookup_script ul serial 0 (certificates w)) with
  | None =>
    Forall (fun c => is_sign_cades c = false) (script ul w data serial)
  | Some (index, _) =>
    exists body,
      script ul w data serial
      = body ++ [SignCades (content_for data) (signer_for w index)
                           (Int 1) false (Int 0)]
      /\ Forall (fun c => is_sign_cades c = false) body
  end.
Proof.
  unfold script.
  pose proof (lookup_script_reads ul serial (certificates w) 0) as Hr.
  destruct (lookup_script ul serial 0 (certificates w)) as [reads found].
  cbn [fst snd] in *.
  assert (Hreads : Forall (fun c => is_sign_cades c = false) reads).
  { eapply Forall_impl; [|exact Hr]. apply certificate_read_not_sign. }
  destruct found as [[index c]|].
  - destruct (signing_script_last w data index) as [-> Hsetup].
    exists (store_script ++ reads ++ signing_setup w data index). split.
    + now rewrite <- !app_assoc.
    + rewrite !Forall_app. repeat split; auto. repeat constructor.
  - rewrite app_nil_r, Forall_app. split; [repeat constructor | assumption].
Qed.

(** X6. A signing call is only ever made with a signer bound to a
    certificate of the store whose serial number matches the requested
    one, letter case apart. *)
Theorem signs_only_with_matching_certificate (data serial : Py.str) (w : World)
        (content : SignedData) (signer : Signer) (cades_type : value)
        (detached : bool) (encoding : value) :
  In (SignCades content signer cades_type detached encoding)
     (fst (HelperSignature.signed_data ul data serial w)) ->
  exists c,
    nth_error (certificates w) (signer_Certificate signer) = Some c
    /\ same_but_for_case ul (SerialNumber c) serial.
Proof.
  rewrite signed_data_script.
  destruct (fails w CoInitialize); [intros [[=] | []]|].
  pose proof (attempt_incl w (script ul w data serial)) as Hin.
  pose proof (script_shape w data serial) as Hshape.
  destruct (attempt w (script ul w data serial)) as [t e].
  cbn [fst snd] in *. intros [[=] | Hc].
  apply in_app_or in Hc as [Hc | [[=] | []]].
  apply Hin in Hc.
  destruct (snd (lookup_script ul serial 0 (certificates w)))
    as [[index c]|] eqn:Hfound.
  - destruct Hshape as (body & Hs & Hbody). rewrite Hs in Hc.
    apply in_app_or in Hc as [Hc | [Hc | []]].
    + rewrite Forall_forall in Hbody. now apply Hbody in Hc.
    + injection Hc as _ <- _ _ _.
      destruct (lookup_script_first ul serial (certificates w) 0 index c Hfound)
        as (_ & Hn & Hm & _).
      rewrite Nat.sub_0_r in Hn. exists c. auto.
  - rewrite Forall_forall in Hshape. now apply Hshape in Hc.
Qed.

(** X7. The signing call is made at most once in a signing, and when it
    is made it is the last call before [CoUninitialize]: nothing is
    retried and nothing follows it. *)
Theorem signing_call_made_once_and_last (data serial : Py.str) (w : World)
        (content : SignedData) (signer : Signer) (cades_type : value)
        (detached : bool) (encoding : value) :
  In (SignCades content signer cades_type detached encoding)
     (fst (HelperSignature.signed_data ul data serial w)) ->
  exists before,
    fst (HelperSignature.signed_data ul data serial w)
    = before ++ [SignCades content signer cades_type detached encoding;
                 CoUninitialize]
    /\ Forall (fun c => is_sign_cades c = false) before.
Proof.
  rewrite signed_data_script.
  destruct (fails w CoInitialize); [intros [[=] | []]|].
  destruct (attempt_prefix w (script ul w data serial)) as [rest Hpre].
  pose proof (script_shape w data serial) as Hshape.
  destruct (attempt w (script ul w data serial)) as [t e].
  cbn [fst snd] in *. intros [[=] | Hc].
  apply in_app_or in Hc as [Hc | [[=] | []]].
  destruct (snd (lookup_script ul serial 0 (certificates w))) as [[index c]|].
  - destruct Hshape as (body & Hs & Hbody). rewrite Hs in Hpre.
    destruct (prefix_reaches_last is_sign_cades body t rest _ _ Hpre Hbody Hc eq_refl)
      as [-> ->].
    exists (CoInitialize :: body). split.
    + simpl. now rewrite <- app_assoc.
    + now constructor.
  - rewrite Hpre, Forall_app in Hshape. destruct Hshape as [Ht _].
    rewrite Forall_forall in Ht. now apply Ht in Hc.
Qed.




(** X10. The text of the COM failure that ends a request is the end of
    the detail of the 500 response. *)
Theorem com_failure_text_in_detail (mode : SignatureMode) (req : SignRequest)
        (w : World) (c : call) (text : Py.str) :
  In c (fst (endpoint ul mode req w)) -> c <> CoUninitialize ->
  fails w c = Some text ->
  exists prefix,
    snd (endpoint ul mode req w)
    = HTTPException HTTP_500_INTERNAL_SERVER_ERROR (prefix ++ text).
Proof.
  destruct (endpoint_cases ul mode req w) as [-> Hr].
  rewrite helper_of_content in *.
  destruct (content_of mode (data req)) as [e|content]; [intros []|].
  rewrite signed_data_script in *.
  destruct (fails w CoInitialize) eqn:Hinit; cbn [fst snd] in *.
  - intros [<- | []] _ Hf. rewrite Hinit in Hf. injection Hf as ->. exact Hr.
  - pose proof (attempt_failing_call_text w (script ul w content (serial_number req)))
      as Htext.
    destruct (attempt w (script ul w content (serial_number req))) as [t e].
    cbn [fst snd] in *. intros [<- | Hin] Hne Hf; [congruence|].
    apply in_app_or in Hin as [Hin | [<- | []]]; [|congruence].
    rewrite (Htext c text Hin Hf) in Hr. exact Hr.
Qed.

Lemma lookup_script_read_order serial certs :
  forall i call,
    In call (fst (lookup_script ul serial i certs)) ->
    (forall k, call = Certificate_SerialNumber k ->
       (i <= k)%nat
       /\ forall j c, (j < k - i)%nat -> nth_error certs j = Some c ->
            ~ same_but_for_case ul (SerialNumber c) serial)
    /\ (forall k, call = Certificate_SubjectName k ->
          (i <= k)%nat
          /\ exists c, nth_error certs (k - i) = Some c
                       /\ same_but_for_case ul (SerialNumber c) serial).
Proof.
  unfold same_but_for_case.
  induction certs as [|c0 certs IH]; intros i call; simpl; [easy|].
  destruct (Py.str_eqb _ _) eqn:E.
  - simpl. intros [<- | [<- | []]]; split; intros k [= <-];
      rewrite ?Nat.sub_diag; (split; [lia|]).
    + intros j c Hj. lia.
    + exists c0. split; [reflexivity | now apply str_eqb_eq].
  - specialize (IH (S i) call).
    destruct (lookup_script ul serial (S i) certs) as [reads found].
    simpl in *. intros [<- | Hin].
    + split; intros k [= <-]. rewrite Nat.sub_diag. split; [lia|].
      intros j c Hj. lia.
    + destruct (IH Hin) as [Hs Hn]. split; intros k ->.
      * destruct (Hs k eq_refl) as [Hle Hbefore]. split; [lia|].
        intros [|j] c Hj Hc; simpl in Hc.
        -- injection Hc as <-. intros Heq. apply str_eqb_eq in Heq. congruence.
        -- apply (Hbefore j c); [lia | assumption].
      * destruct (Hn k eq_refl) as (Hle & c & Hc & Hm). split; [lia|].
        exists c. replace (k - i)%nat with (S (k - S i)) by lia. auto.
Qed.

(** X11. The lookup reads the serial number of a certificate only when
    no certificate before it matched, and reads the subject name only of
    a certificate that matched. *)
Theorem lookup_stops_at_first_match (data serial : Py.str) (w : World) (k : nat) :
  (In (Certificate_SerialNumber k)
      (fst (HelperSignature.signed_data ul data serial w)) ->
   forall j c, (j < k)%nat -> nth_error (certificates w) j = Some c ->
     ~ same_but_for_case ul (SerialNumber c) serial)
  /\ (In (Certificate_SubjectName k)
         (fst (HelperSignature.signed_data ul data serial w)) ->
      exists c, nth_error (certificates w) k = Some c
                /\ same_but_for_case ul (SerialNumber c) serial).
Proof.
  assert (Hreads : forall call,
             certificate_read call = true ->
             In call (fst (HelperSignature.signed_data ul data serial w)) ->
             In call (fst (lookup_script ul serial 0 (certificates w)))).
  { intros call Hread. rewrite signed_data_script.
    destruct (fails w CoInitialize); [intros [<- | []]; discriminate|].
    pose proof (attempt_incl w (script ul w data serial)) as Hin.
    destruct (attempt w (script ul w data serial)) as [t e].
    cbn [fst snd] in *. intros [<- | Hc]; [discriminate|].
    apply in_app_or in Hc as [Hc | [<- | []]]; [|discriminate].
    apply Hin in Hc. unfold script in Hc.
    destruct (lookup_script ul serial 0 (certificates w)) as [reads found].
    cbn [fst]. apply in_app_or in Hc as [Hc | Hc].
    - simpl in Hc. destruct Hc as [<- | [<- | [<- | []]]]; discriminate.
    - apply in_app_or in Hc as [Hc | Hc]; [assumption|].
      destruct found as [[index c']|]; [|destruct Hc].
      simpl in Hc.
      repeat (destruct Hc as [<- | Hc]; [discriminate|]). destruct Hc. }
  split; intros Hin.
  - apply Hreads in Hin; [|reflexivity].
    destruct (lookup_script_read_order serial (certificates w) 0 _ Hin) as [Hs _].
    destruct (Hs k eq_refl) as [_ Hbefore]. rewrite Nat.sub_0_r in Hbefore.
    exact Hbefore.
  - apply Hreads in Hin; [|reflexivity].
    destruct (lookup_script_read_order serial (certificates w) 0 _ Hin) as [_ Hn].
    destruct (Hn k eq_refl) as (_ & c & Hc & Hm). rewrite Nat.sub_0_r in Hc.
    eauto.
Qed.

End TraceFacts.

(** The UTF-8 octets of an ASCII string are its code points. *)
Lemma utf8_encode_from_ascii s :
  forallb Py.is_ascii s = true ->
  forall pos, Py.utf8_encode_from pos s = inr s.
Proof.
  induction s as [|c s IH]; simpl; intros H pos; [reflexivity|].
  apply andb_prop in H as [Hc Hs]. unfold Py.is_ascii in Hc.
  apply N.ltb_lt in Hc.
  assert (Hsur : Py.is_surrogate c = false).
  { unfold Py.is_surrogate. apply andb_false_intro1, N.leb_gt. lia. }
  rewrite Hsur, (IH Hs). unfold Py.utf8_char.
  apply N.ltb_lt in Hc. replace (c <? 0x80) with true
    by (symmetry; apply N.ltb_lt; apply N.ltb_lt in Hc; lia).
  reflexivity.
Qed.

(** X12. On an ASCII payload without carriage returns and line feeds
    the two modes prepare the same content. *)
Theorem modes_agree_on_ascii_lines (s : Py.str) :
  forallb Py.is_ascii s = true ->
  strip_newlines s = s ->
  HelperSignature.unpinned_content s = HelperSignature.attached_content s.
Proof.
  intros Ha Hs.
  rewrite unpinned_content_stripped, Hs.
  unfold HelperSignature.attached_content, Py.encode_utf8, Py.encode_ascii.
  rewrite (utf8_encode_from_ascii s Ha), (ascii_encode_from_ascii s Ha).
  symmetry. apply decode_ascii_b64encode.
Qed.

(** ** Content preparation loses nothing *)

Lemma all_from_spec p fuel :
  forall x, all_from p fuel x = true ->
  forall y, x <= y < x + N.of_nat fuel -> p y = true.
Proof.
  induction fuel as [|f IH]; intros x H y Hy; simpl in H.
  - lia.
  - apply andb_prop in H as [Hx Hrest].
    destruct (N.eq_dec y x) as [-> | Hne]; [assumption|].
    apply (IH (N.succ x) Hrest). lia.
Qed.

Lemma all_below_spec p n : all_below p n = true -> forall y, y < n -> p y = true.
Proof.
  intros H y Hy. apply (all_from_spec p (N.to_nat n) 0 H). lia.
Qed.

(** The code points of the basic plane are checked one by one; those
    above it are dealt with by their bits. *)
Lemma utf8_chars_decode : all_below utf8_char_decodes 0x10000 = true.
Proof. vm_compute. reflexivity. Qed.

Lemma utf8_heads_ok : all_below utf8_head_ok 272 = true.
Proof. vm_compute. reflexivity. Qed.

Lemma utf8_tails_ok : all_below utf8_tail_ok 64 = true.
Proof. vm_compute. reflexivity. Qed.

Lemma land_63_lt x : N.land x 0x3F < 64.
Proof.
  change 0x3F with (N.ones 6). rewrite N.land_ones.
  apply N.mod_lt. discriminate.
Qed.

(** A number is its bits from [n] up and its [n] low bits. *)
Lemma split_bits a n :
  N.lor (N.shiftl (N.shiftr a n) n) (N.land a (N.ones n)) = a.
Proof. rewrite <- N.ldiff_ones_r. apply N.lor_ldiff_and. Qed.

Lemma utf8_tail_facts x :
  x < 64 ->
  Py.is_cont (N.lor 0x80 x) = true /\ Py.low6 (N.lor 0x80 x) = x
  /\ N.lor 0x80 x < 256.
Proof.
  intros Hx. pose proof (all_below_spec _ _ utf8_tails_ok x Hx) as H.
  unfold utf8_tail_ok in H. cbv zeta in H.
  apply andb_prop in H as [H H3]. apply andb_prop in H as [H1 H2].
  apply N.eqb_eq in H2. apply N.ltb_lt in H3. auto.
Qed.

Lemma four_sextets c :
  N.lor (N.shiftl (N.shiftr (N.shiftr c 12) 6) 18)
        (N.lor (N.shiftl (N.land (N.shiftr c 12) 0x3F) 12)
               (N.lor (N.shiftl (N.land (N.shiftr c 6) 0x3F) 6)
                      (N.land (N.shiftr c 0) 0x3F)))
  = c.
Proof.
  rewrite N.shiftr_0_r.
  rewrite <- (split_bits c 6) at 5.
  rewrite <- (split_bits (N.shiftr c 6) 6) at 2.
  rewrite <- (split_bits (N.shiftr (N.shiftr c 6) 6) 6).
  rewrite !N.shiftr_shiftr, !N.shiftl_lor, !N.shiftl_shiftl.
  change (N.ones 6) with 0x3F. change (6 + 6) with 12. change (12 + 6) with 18.
  change (6 + 6 + 6) with 18.
  now rewrite !N.lor_assoc.
Qed.

Lemma utf8_head_facts c :
  0x10000 <= c < 0x110000 ->
  let b0 := N.lor 0xF0 (N.shiftr (N.shiftr c 12) 6) in
  let b1 := N.lor 0x80 (N.land (N.shiftr c 12) 0x3F) in
  (b0 <? 0x80) = false /\ (b0 <? 0xC2) = false /\ (b0 <? 0xE0) = false
  /\ (b0 <? 0xF0) = false /\ (b0 <? 0xF5) = true
  /\ negb (Py.is_cont b1) || ((b0 =? 0xF0) && (b1 <? 0x90))
     || ((b0 =? 0xF4) && (0x90 <=? b1)) = false
  /\ N.land b0 7 = N.shiftr (N.shiftr c 12) 6
  /\ Py.low6 b1 = N.land (N.shiftr c 12) 0x3F
  /\ b0 < 256 /\ b1 < 256.
Proof.
  intros Hc.
  assert (Hhi : 16 <= N.shiftr c 12 < 272).
  { rewrite N.shiftr_div_pow2. change (2 ^ 12) with 4096. split.
    - apply N.div_le_lower_bound; [discriminate | lia].
    - apply N.Div0.div_lt_upper_bound. lia. }
  pose proof (all_below_spec _ _ utf8_heads_ok (N.shiftr c 12) (proj2 Hhi)) as H.
  unfold utf8_head_ok in H.
  replace (N.shiftr c 12 <? 16) with false in H
    by (symmetry; apply N.ltb_ge; lia).
  cbn [orb] in H. cbv zeta in *.
  repeat match type of H with
         | (_ && _) = true =>
           let H' := fresh "H" in apply andb_prop in H as [H H']
         end.
  apply negb_true_iff in H. apply negb_true_iff in H4.
  apply N.ltb_ge in H as Hge.
  repeat match goal with
         | E : (_ =? _) = true |- _ => apply N.eqb_eq in E
         | E : (_ <? 256) = true |- _ => apply N.ltb_lt in E
         end.
  repeat split; try assumption; try (apply N.ltb_ge; lia).
Qed.

(** A code point of the supplementary planes survives UTF-8. *)
Lemma utf8_char_decodes_high c :
  0x10000 <= c < 0x110000 ->
  Py.utf8_decode_from 0 (Py.utf8_char c) = inr [c]
  /\ Forall octet (Py.utf8_char c).
Proof.
  intros Hc.
  destruct (utf8_head_facts c Hc)
    as (E1 & E2 & E3 & E4 & E5 & E6 & P0 & P1 & O0 & O1).
  destruct (utf8_tail_facts _ (land_63_lt (N.shiftr c 6))) as (C2 & P2 & O2).
  destruct (utf8_tail_facts _ (land_63_lt (N.shiftr c 0))) as (C3 & P3 & O3).
  unfold Py.utf8_char.
  replace (c <? 0x80) with false by (symmetry; apply N.ltb_ge; lia).
  replace (c <? 0x800) with false by (symmetry; apply N.ltb_ge; lia).
  replace (c <? 0x10000) with false by (symmetry; apply N.ltb_ge; lia).
  unfold Py.cont_of.
  change 18 with (12 + 6). rewrite <- N.shiftr_shiftr.
  split.
  - cbn [Py.utf8_decode_from].
    rewrite E1, E2, E3, E4, E5, E6, C2, C3, P0, P1, P2, P3.
    cbn [negb Py.push]. now rewrite four_sextets.
  - repeat (apply Forall_cons; [assumption|]). constructor.
Qed.

Lemma push_inr_inv c r s : Py.push c r = inr s -> exists t, r = inr t /\ s = c :: t.
Proof. destruct r as [e|t]; simpl; [discriminate|]. intros [= <-]. eauto. Qed.

Lemma push_prepend c t r : Py.push c (prepend_str t r) = prepend_str (c :: t) r.
Proof. now destruct r. Qed.

Ltac decoder_step H :=
  match type of H with
  | context [if ?b then _ else _] => destruct b eqn:?
  | context [match ?l with [] => _ | _ :: _ => _ end] => destruct l
  end; try discriminate H.

(** Octets that decode in full still decode, to the same code points,
    when more octets follow. *)
Lemma utf8_decode_from_app n :
  forall l, (List.length l <= n)%nat ->
  forall p s, Py.utf8_decode_from p l = inr s ->
  forall p' rest,
    Py.utf8_decode_from p' (l ++ rest)
    = prepend_str s (Py.utf8_decode_from (p' + N.of_nat (List.length l)) rest).
Proof.
  induction n as [|n IH]; intros l Hl p s H p' rest.
  - destruct l; [|simpl in Hl; lia]. simpl in *. injection H as <-.
    rewrite N.add_0_r. now destruct (Py.utf8_decode_from p' rest).
  - destruct l as [|b0 l].
    { simpl in *. injection H as <-.
      rewrite N.add_0_r. now destruct (Py.utf8_decode_from p' rest). }
    simpl in Hl. cbn [Py.utf8_decode_from app] in *.
    repeat decoder_step H; cbn [app];
      apply push_inr_inv in H as (t & Ht & ->);
      (erewrite IH; [| | exact Ht]; [|simpl in *; lia]);
      rewrite push_prepend;
      repeat match goal with
             | E : ?b = _ |- context [if ?b then _ else _] => rewrite E
             end;
      do 2 f_equal; cbn [List.length]; lia.
Qed.

Lemma utf8_char_decodes_spec c :
  Py.scalar_value c -> Py.utf8_decode_from 0 (Py.utf8_char c) = inr [c].
Proof.
  intros [Hc Hs].
  destruct (N.lt_ge_cases c 0x10000) as [Hlow | Hhigh];
    [|now apply utf8_char_decodes_high].
  pose proof (all_below_spec _ _ utf8_chars_decode c Hlow) as H.
  unfold utf8_char_decodes in H. rewrite Hs in H. cbn [orb] in H.
  apply andb_prop in H as [_ H].
  destruct (Py.utf8_decode_from 0 (Py.utf8_char c)) as [e|[|c' [|? ?]]];
    try discriminate.
  apply N.eqb_eq in H. now subst.
Qed.

Lemma utf8_decode_from_encoded s :
  Forall Py.scalar_value s ->
  forall p, Py.utf8_decode_from p (flat_map Py.utf8_char s) = inr s.
Proof.
  induction 1 as [|c s Hc _ IH]; intros p; simpl; [reflexivity|].
  rewrite (utf8_decode_from_app _ (Py.utf8_char c) (le_n _) 0 [c]
             (utf8_char_decodes_spec c Hc)).
  now rewrite IH.
Qed.

(** X16. Decoding what [encode()] gave for a string of scalar values
    gives the string back. *)
Theorem utf8_round_trip (s : Py.str) :
  Forall Py.scalar_value s ->
  exists octets, Py.encode_utf8 s = inr octets /\ Py.decode_utf8 octets = inr s.
Proof.
  intros H. exists (flat_map Py.utf8_char s). split.
  - now apply encode_utf8_scalar.
  - unfold Py.decode_utf8. now rewrite utf8_decode_from_encoded.
Qed.

(** *** Base64 read back *)

Lemma symbols_read_back : all_below symbol_reads_back 64 = true.
Proof. vm_compute. reflexivity. Qed.

Lemma first_pairs_read_back : all_below first_pair_reads_back 256 = true.
Proof. vm_compute. reflexivity. Qed.

Lemma second_pairs_read_back : all_below second_pair_reads_back 256 = true.
Proof. vm_compute. reflexivity. Qed.

Lemma b64_value_symbol i :
  i < 64 ->
  b64_value (Py.b64_symbol i) = Some i
  /\ (Py.b64_symbol i =? Py.b64_pad) = false.
Proof.
  intros Hi. pose proof (all_below_spec _ _ symbols_read_back i Hi) as H.
  unfold symbol_reads_back in H.
  destruct (b64_value (Py.b64_symbol i)) as [j|]; [|discriminate].
  apply andb_prop in H as [Hj Hp]. apply N.eqb_eq in Hj. subst j.
  split; [reflexivity|]. now apply negb_true_iff.
Qed.

Ltac split_checks H :=
  repeat match type of H with
         | (_ && _) = true =>
           let H' := fresh "H" in apply andb_prop in H as [H H']
         end.

Lemma first_pair_facts x y :
  x < 256 -> y < 256 ->
  N.shiftr x 2 < 64 /\ sextet2 x y < 64 /\ N.shiftl (N.land x 3) 4 < 64
  /\ octet1 (N.shiftr x 2) (sextet2 x y) = x
  /\ octet1 (N.shiftr x 2) (N.shiftl (N.land x 3) 4) = x
  /\ N.land (sextet2 x y) 15 = N.shiftr y 4.
Proof.
  intros Hx Hy.
  pose proof (all_below_spec _ _ first_pairs_read_back x Hx) as H.
  pose proof (all_below_spec _ _ H y Hy) as H'. cbv beta in H'.
  split_checks H'.
  repeat match goal with
         | E : (_ <? _) = true |- _ => apply N.ltb_lt in E
         | E : (_ =? _) = true |- _ => apply N.eqb_eq in E
         end.
  repeat split; assumption.
Qed.

Lemma second_pair_facts y z :
  y < 256 -> z < 256 ->
  sextet3 y z < 64 /\ N.land z 63 < 64 /\ N.shiftl (N.land y 15) 2 < 64
  /\ N.shiftr (sextet3 y z) 2 = N.land y 15
  /\ N.shiftr (N.shiftl (N.land y 15) 2) 2 = N.land y 15
  /\ octet3 (sextet3 y z) (N.land z 63) = z
  /\ N.lor (N.shiftl (N.shiftr y 4) 4) (N.land y 15) = y.
Proof.
  intros Hy Hz.
  pose proof (all_below_spec _ _ second_pairs_read_back y Hy) as H.
  pose proof (all_below_spec _ _ H z Hz) as H'. cbv beta in H'.
  split_checks H'.
  repeat match goal with
         | E : (_ <? _) = true |- _ => apply N.ltb_lt in E
         | E : (_ =? _) = true |- _ => apply N.eqb_eq in E
         end.
  repeat split; assumption.
Qed.

Lemma b64decode_b64encode_aligned b :
  (Forall octet b -> b64decode (Py.b64encode b) = Some b)
  /\ (forall x, Forall octet (x :: b) ->
        b64decode (Py.b64encode (x :: b)) = Some (x :: b))
  /\ (forall x y, Forall octet (x :: y :: b) ->
        b64decode (Py.b64encode (x :: y :: b)) = Some (x :: y :: b)).
Proof.
  induction b as [|z b (IH0 & IH1 & IH2)].
  - split; [reflexivity|]. split.
    + intros x Hx. apply Forall_cons_iff in Hx as [Hx _].
      destruct (first_pair_facts x 0 Hx eq_refl) as (H1 & _ & H2 & _ & Ho & _).
      cbn [Py.b64encode b64decode].
      destruct (b64_value_symbol _ H1) as [-> _].
      destruct (b64_value_symbol _ H2) as [-> _].
      rewrite N.eqb_refl, Ho. reflexivity.
    + intros x y H. apply Forall_cons_iff in H as [Hx H].
      apply Forall_cons_iff in H as [Hy _].
      destruct (first_pair_facts x y Hx Hy) as (H1 & H2 & _ & Ho & _ & Hl).
      destruct (second_pair_facts y 0 Hy eq_refl) as (_ & _ & H3 & _ & Hr & _ & Hy').
      cbn [Py.b64encode b64decode]. fold (sextet2 x y).
      destruct (b64_value_symbol _ H1) as [-> _].
      destruct (b64_value_symbol _ H2) as [-> _].
      destruct (b64_value_symbol _ H3) as [-> ->].
      rewrite N.eqb_refl, Ho. unfold octet2. now rewrite Hl, Hr, Hy'.
  - split; [apply IH1|]. split; [intros x; apply IH2|].
    intros x y H. apply Forall_cons_iff in H as [Hx H].
    apply Forall_cons_iff in H as [Hy H].
    apply Forall_cons_iff in H as [Hz H].
    destruct (first_pair_facts x y Hx Hy) as (H1 & H2 & _ & Ho & _ & Hl).
    destruct (second_pair_facts y z Hy Hz) as (H3 & H4 & _ & Hr & _ & Hz' & Hy').
    cbn [Py.b64encode b64decode]. fold (sextet2 x y) (sextet3 y z).
    destruct (b64_value_symbol _ H1) as [-> _].
    destruct (b64_value_symbol _ H2) as [-> _].
    destruct (b64_value_symbol _ H3) as [-> ->].
    destruct (b64_value_symbol _ H4) as [-> ->].
    rewrite (IH0 H), Ho, Hz'. unfold octet2. now rewrite Hl, Hr, Hy'.
Qed.

(** Base64 loses nothing: the octets can be read back from the text. *)
Lemma b64decode_b64encode b :
  Forall octet b -> b64decode (Py.b64encode b) = Some b.
Proof. apply b64decode_b64encode_aligned. Qed.

Lemma b64encode_injective a b :
  Forall octet a -> Forall octet b -> Py.b64encode a = Py.b64encode b -> a = b.
Proof.
  intros Ha Hb E.
  pose proof (b64decode_b64encode a Ha) as Da.
  rewrite E, (b64decode_b64encode b Hb) in Da. now injection Da.
Qed.

(** *** What a successful encoding tells *)

Lemma encode_ascii_inr s b :
  Py.encode_ascii s = inr b -> b = s /\ forallb Py.is_ascii s = true.
Proof.
  intros H. destruct (forallb Py.is_ascii s) eqn:Ha.
  - rewrite (encode_ascii_ascii s Ha) in H. now injection H as <-.
  - unfold Py.encode_ascii in H.
    destruct (ascii_encode_from_non_ascii s Ha 0) as (st & en & E).
    rewrite E in H. discriminate.
Qed.

Lemma ascii_octets s : forallb Py.is_ascii s = true -> Forall octet s.
Proof.
  intros H. rewrite forallb_forall in H. apply Forall_forall. intros c Hc.
  specialize (H c Hc). unfold Py.is_ascii in H. apply N.ltb_lt in H.
  unfold octet. lia.
Qed.

Lemma utf8_encode_from_inr s :
  forall pos b,
    Py.utf8_encode_from pos s = inr b ->
    b = flat_map Py.utf8_char s /\ Forall (fun c => Py.is_surrogate c = false) s.
Proof.
  induction s as [|c s IH]; simpl; intros pos b H.
  - injection H as <-. auto.
  - destruct (Py.is_surrogate c) eqn:Hc; [discriminate|].
    destruct (Py.utf8_encode_from (pos + 1) s) as [e|t] eqn:E; [discriminate|].
    simpl in H. injection H as <-.
    destruct (IH _ _ E) as [-> Hs]. auto.
Qed.

Lemma utf8_octets s :
  Forall Py.scalar_value s -> Forall octet (flat_map Py.utf8_char s).
Proof.
  induction 1 as [|c s [Hc Hs] _ IH]; simpl; [constructor|].
  apply Forall_app. split; [|assumption].
  destruct (N.lt_ge_cases c 0x10000) as [Hlow | Hhigh];
    [|now apply utf8_char_decodes_high].
  pose proof (all_below_spec _ _ utf8_chars_decode c Hlow) as H.
  unfold utf8_char_decodes in H. rewrite Hs in H. cbn [orb] in H.
  apply andb_prop in H as [H _]. rewrite forallb_forall in H.
  apply Forall_forall. intros x Hx. now apply N.ltb_lt, H.
Qed.

Lemma scalar_values s :
  Py.wf_str s -> Forall (fun c => Py.is_surrogate c = false) s ->
  Forall Py.scalar_value s.
Proof.
  unfold Py.wf_str. rewrite !Forall_forall. intros W S c Hc. split; auto.
Qed.

Lemma strip_newlines_wf s : Py.wf_str s -> Py.wf_str (strip_newlines s).
Proof.
  unfold Py.wf_str, strip_newlines. rewrite !Forall_forall.
  intros H c Hc. apply filter_In in Hc as [Hc _]. auto.
Qed.

Lemma utf8_char_injective a b :
  Forall Py.scalar_value a -> Forall Py.scalar_value b ->
  flat_map Py.utf8_char a = flat_map Py.utf8_char b -> a = b.
Proof.
  intros Ha Hb E.
  pose proof (utf8_decode_from_encoded a Ha 0) as Da.
  rewrite E, (utf8_decode_from_encoded b Hb 0) in Da. now injection Da.
Qed.

(** X13. Attached-mode preparation is injective: two payloads with the
    same content are the same payload. *)
Theorem attached_content_injective (a b content : Py.str) :
  HelperSignature.attached_content a = inr content ->
  HelperSignature.attached_content b = inr content ->
  a = b.
Proof.
  unfold HelperSignature.attached_content. intros Ha Hb.
  destruct (Py.encode_ascii a) as [e|oa] eqn:Ea; [discriminate|].
  destruct (Py.encode_ascii b) as [e|ob] eqn:Eb; [discriminate|].
  apply encode_ascii_inr in Ea as [-> Aa].
  apply encode_ascii_inr in Eb as [-> Ab].
  rewrite decode_ascii_b64encode in Ha, Hb.
  injection Ha as Ha. injection Hb as Hb. unfold as_text in *.
  apply b64encode_injective; auto using ascii_octets. congruence.
Qed.

(** X14. Two payloads with the same detached-mode content are the same
    once their carriage returns and line feeds are removed. *)
Theorem detached_content_determines_text (a b content : Py.str) :
  Py.wf_str a -> Py.wf_str b ->
  HelperSignature.unpinned_content a = inr content ->
  HelperSignature.unpinned_content b = inr content ->
  strip_newlines a = strip_newlines b.
Proof.
  intros Wa Wb. rewrite !unpinned_content_stripped. unfold Py.encode_utf8.
  intros Ha Hb.
  destruct (Py.utf8_encode_from 0 (strip_newlines a)) as [[[? ?] ?]|oa] eqn:Ea;
    [discriminate|].
  destruct (Py.utf8_encode_from 0 (strip_newlines b)) as [[[? ?] ?]|ob] eqn:Eb;
    [discriminate|].
  apply utf8_encode_from_inr in Ea as [-> Sa].
  apply utf8_encode_from_inr in Eb as [-> Sb].
  injection Ha as Ha. injection Hb as Hb. unfold as_text in *.
  apply strip_newlines_wf in Wa, Wb.
  apply utf8_char_injective; auto using scalar_values.
  apply b64encode_injective; auto using utf8_octets, scalar_values. congruence.
Qed.

(** *** The shape of base64 text *)

Lemma b64_symbol_char i : i < 64 -> b64_char (Py.b64_symbol i).
Proof.
  intros Hi. left. unfold Py.b64_symbol. apply nth_In.
  change (List.length Py.b64_alphabet) with 64%nat. lia.
Qed.

Lemma b64_pad_char : b64_char Py.b64_pad.
Proof. now right. Qed.

Lemma b64encode_shape_aligned b :
  let shape l :=
    Forall octet l ->
    Forall b64_char (Py.b64encode l)
    /\ exists groups,
         List.length (Py.b64encode l) = (4 * groups)%nat
         /\ (List.length l <= 3 * groups < List.length l + 3)%nat in
  shape b /\ (forall x, shape (x :: b)) /\ (forall x y, shape (x :: y :: b)).
Proof.
  cbv zeta. induction b as [|z b (IH0 & IH1 & IH2)].
  - split; [|split].
    + intros _. split; [constructor|]. exists 0%nat.
      cbn [Py.b64encode List.length]. lia.
    + intros x Hx. apply Forall_cons_iff in Hx as [Hx _].
      destruct (first_pair_facts x 0 Hx eq_refl) as (H1 & _ & H2 & _).
      cbn [Py.b64encode List.length]. split; [|exists 1%nat; lia].
      repeat first [ apply Forall_nil
                   | apply Forall_cons;
                     [first [ now apply b64_symbol_char | apply b64_pad_char ]|] ].
    + intros x y H. apply Forall_cons_iff in H as [Hx H].
      apply Forall_cons_iff in H as [Hy _].
      destruct (first_pair_facts x y Hx Hy) as (H1 & H2 & _).
      destruct (second_pair_facts y 0 Hy eq_refl) as (_ & _ & H3 & _).
      cbn [Py.b64encode List.length]. split; [|exists 1%nat; lia].
      repeat first [ apply Forall_nil
                   | apply Forall_cons;
                     [first [ now apply b64_symbol_char | apply b64_pad_char ]|] ].
  - split; [apply IH1|]. split; [intros x; apply IH2|].
    intros x y H. apply Forall_cons_iff in H as [Hx H].
    apply Forall_cons_iff in H as [Hy H].
    apply Forall_cons_iff in H as [Hz H].
    destruct (first_pair_facts x y Hx Hy) as (H1 & H2 & _).
    destruct (second_pair_facts y z Hy Hz) as (H3 & H4 & _).
    destruct (IH0 H) as (Hchars & groups & Hlen & Hgroups).
    cbn [Py.b64encode List.length]. split.
    + repeat (apply Forall_cons; [now apply b64_symbol_char|]). exact Hchars.
    + exists (S groups). lia.
Qed.

(** X15. The content handed to the signer is base64 text: every
    character is one of the 64 symbols or the padding sign, and the
    length is a multiple of four. *)
Theorem content_is_base64_text (mode : SignatureMode) (payload content : Py.str) :
  Py.wf_str payload ->
  content_of mode payload = inr content ->
  Forall b64_char content
  /\ exists groups, List.length content = (4 * groups)%nat.
Proof.
  intros W H.
  assert (Hb : exists octets, Forall octet octets /\ content = Py.b64encode octets).
  { destruct mode; simpl in H.
    - unfold HelperSignature.attached_content in H.
      destruct (Py.encode_ascii payload) as [e|o] eqn:E; [discriminate|].
      apply encode_ascii_inr in E as [-> A].
      rewrite decode_ascii_b64encode in H. injection H as <-.
      exists payload. auto using ascii_octets.
    - rewrite unpinned_content_stripped in H. unfold Py.encode_utf8 in H.
      destruct (Py.utf8_encode_from 0 (strip_newlines payload))
        as [[[? ?] ?]|o] eqn:E; [discriminate|].
      apply utf8_encode_from_inr in E as [-> S]. injection H as <-.
      eexists. split; [|reflexivity].
      apply utf8_octets, scalar_values; [apply strip_newlines_wf, W | exact S]. }
  destruct Hb as (octets & Ho & ->).
  destruct (proj1 (b64encode_shape_aligned octets) Ho) as (Hc & groups & Hl & _).
  split; [exact Hc | now exists groups].
Qed.

(** ** Concrete runs of the further properties *)

(** The signing call of the sample request [hello] on the sample store. *)
Lemma hello_signing_call :
  In (SignCades (content_for (Py.lit "aGVsbG8=")) (signer_for Sample.healthy 1)
                (Int 1) false (Int 0))
     (fst (HelperSignature.signed_data Sample.no_tables (Py.lit "aGVsbG8=")
             (Py.lit "AB12") Sample.healthy)).
Proof. vm_compute. tauto. Qed.

(** X6, witness. *)
Lemma signs_only_with_matching_certificate_witness :
  exists c,
    nth_error (certificates Sample.healthy) 1 = Some c
    /\ same_but_for_case Sample.no_tables (SerialNumber c) (Py.lit "AB12").
Proof.
  exact (signs_only_with_matching_certificate Sample.no_tables _ _ _ _ _ _ _ _
           hello_signing_call).
Defined.

(** X7, witness. *)
Lemma signing_call_made_once_and_last_witness :
  exists before,
    fst (HelperSignature.signed_data Sample.no_tables (Py.lit "aGVsbG8=")
           (Py.lit "AB12") Sample.healthy)
    = before ++ [SignCades (content_for (Py.lit "aGVsbG8="))
                           (signer_for Sample.healthy 1) (Int 1) false (Int 0);
                 CoUninitialize]
    /\ Forall (fun c => is_sign_cades c = false) before.
Proof.
  exact (signing_call_made_once_and_last Sample.no_tables _ _ _ _ _ _ _ _
           hello_signing_call).
Defined.



(** X10, witness. The rejected signing call on the detached endpoint. *)
Lemma com_failure_text_in_detail_witness :
  exists prefix,
    snd (endpoint Sample.no_tables Detached Sample.hello Sample.rejecting)
    = HTTPException HTTP_500_INTERNAL_SERVER_ERROR
        (prefix ++ Py.lit "(-2146893802, 'Keyset does not exist')").
Proof.
  refine (com_failure_text_in_detail Sample.no_tables Detached Sample.hello
            Sample.rejecting
            (SignCades (content_for (Py.lit "aGVsbG8=")) (signer_for Sample.healthy 1)
                       (Int 1) false (Int 0))
            _ _ _ _).
  - vm_compute. tauto.
  - discriminate.
  - reflexivity.
Defined.

(** X11, witness. The subject name read on the sample store is that of
    the second certificate, which matches. *)
Lemma lookup_stops_at_first_match_witness :
  In (Certificate_SubjectName 1)
     (fst (HelperSignature.signed_data Sample.no_tables (Py.lit "aGVsbG8=")
             (Py.lit "AB12") Sample.healthy))
  /\ exists c,
       nth_error (certificates Sample.healthy) 1 = Some c
       /\ same_but_for_case Sample.no_tables (SerialNumber c) (Py.lit "AB12").
Proof.
  assert (H : In (Certificate_SubjectName 1)
                 (fst (HelperSignature.signed_data Sample.no_tables
                         (Py.lit "aGVsbG8=") (Py.lit "AB12") Sample.healthy)))
    by (vm_compute; tauto).
  split; [exact H|].
  exact (proj2 (lookup_stops_at_first_match Sample.no_tables _ _ _ _) H).
Defined.

(** X12, witness. *)
Lemma modes_agree_on_ascii_lines_witness :
  forallb Py.is_ascii (Py.lit "hello") = true
  /\ strip_newlines (Py.lit "hello") = Py.lit "hello"
  /\ HelperSignature.unpinned_content (Py.lit "hello")
     = HelperSignature.attached_content (Py.lit "hello").
Proof.
  assert (Ha : forallb Py.is_ascii (Py.lit "hello") = true) by reflexivity.
  assert (Hs : strip_newlines (Py.lit "hello") = Py.lit "hello") by reflexivity.
  split; [exact Ha|]. split; [exact Hs|].
  exact (modes_agree_on_ascii_lines _ Ha Hs).
Defined.

(** X13, witness. *)
Lemma attached_content_injective_witness :
  HelperSignature.attached_content (Py.lit "hello") = inr (Py.lit "aGVsbG8=")
  /\ Py.lit "hello" = Py.lit "hello".
Proof.
  assert (H : HelperSignature.attached_content (Py.lit "hello")
              = inr (Py.lit "aGVsbG8=")) by reflexivity.
  split; [exact H|].
  exact (attached_content_injective _ _ _ H H).
Defined.

(** X14, witness. Two payloads that differ in a line feed. *)
Lemma detached_content_determines_text_witness :
  Py.wf_str [0x61; 0x0A; 0x62] /\ Py.wf_str [0x61; 0x62]
  /\ HelperSignature.unpinned_content [0x61; 0x0A; 0x62] = inr (Py.lit "YWI=")
  /\ HelperSignature.unpinned_content [0x61; 0x62] = inr (Py.lit "YWI=")
  /\ strip_newlines [0x61; 0x0A; 0x62] = strip_newlines [0x61; 0x62].
Proof.
  assert (Wa : Py.wf_str [0x61; 0x0A; 0x62]) by (repeat constructor).
  assert (Wb : Py.wf_str [0x61; 0x62]) by (repeat constructor).
  assert (Ha : HelperSignature.unpinned_content [0x61; 0x0A; 0x62]
               = inr (Py.lit "YWI=")) by reflexivity.
  assert (Hb : HelperSignature.unpinned_content [0x61; 0x62]
               = inr (Py.lit "YWI=")) by reflexivity.
  split; [exact Wa|]. split; [exact Wb|]. split; [exact Ha|]. split; [exact Hb|].
  exact (detached_content_determines_text _ _ _ Wa Wb Ha Hb).
Defined.

(** X15, witness. *)
Lemma content_is_base64_text_witness :
  Py.wf_str [0xE9; 0x1F600]
  /\ content_of Detached [0xE9; 0x1F600] = inr (Py.lit "w6nwn5iA")
  /\ Forall b64_char (Py.lit "w6nwn5iA")
  /\ exists groups, List.length (Py.lit "w6nwn5iA") = (4 * groups)%nat.
Proof.
  assert (W : Py.wf_str [0xE9; 0x1F600]) by (repeat constructor).
  assert (H : content_of Detached [0xE9; 0x1F600] = inr (Py.lit "w6nwn5iA"))
    by reflexivity.
  split; [exact W|]. split; [exact H|].
  exact (content_is_base64_text Detached _ _ W H).
Defined.

(** X16, witness. *)
Lemma utf8_round_trip_witness :
  Forall Py.scalar_value [0xE9; 0x1F600]
  /\ exists octets,
       Py.encode_utf8 [0xE9; 0x1F600] = inr octets
       /\ Py.decode_utf8 octets = inr [0xE9; 0x1F600].
Proof.
  assert (H : Forall Py.scalar_value [0xE9; 0x1F600])
    by (repeat constructor).
  split; [exact H | exact (utf8_round_trip _ H)].
Defined.
